(** * Metrics pipeline of the YouTube analytics dashboard

    A shallow embedding of [youtube_dashboard.py]: the tables the script
    loads, the in-place date normalisation, the date filter, the numeric
    coercion, the engagement rate, the rankings, the rollups and the
    channel KPI, followed by the properties of the specification.

    Numbers are exact rationals: the finite values of pandas' float64 and
    int64 columns.  Infinities are not represented; a division by zero,
    which numpy would evaluate to an infinity or to NaN, is reported as the
    fault [ZeroDivision] so that its absence can be stated. *)

From Stdlib Require Import ZArith QArith Qminmax Qround Lia String List Permutation Sorted.
From stdpp Require Import gmap strings list sorting.

Close Scope Q_scope.
Open Scope string_scope.
Open Scope list_scope.

(** ** Cells, rows and tables *)

(** A cell of a pandas DataFrame as this script meets it: a finite number,
    a string (object column), a null (None, NaN, NaT, pd.NA) or a
    timestamp in nanoseconds since the epoch. *)
Inductive cell : Type :=
| Num (q : Q)
| Str (s : string)
| Null
| Ts (t : Z).

Inductive exn : Type :=
| KeyError (k : string)
| TypeError
| ValueError
| IndexError
| ZeroDivision
| RerunException.

Inductive result (A : Type) : Type :=
| Ok (a : A)
| Raise (e : exn).
Arguments Ok {A} a.
Arguments Raise {A} e.

#[global] Instance result_ret : MRet result := fun A a => Ok a.
#[global] Instance result_bind : MBind result := fun A B k r =>
  match r with
  | Ok a => k a
  | Raise e => Raise e
  end.

Fixpoint rmap {A B} (f : A -> result B) (l : list A) : result (list B) :=
  match l with
  | [] => Ok []
  | a :: l' => b ← f a; bs ← rmap f l'; Ok (b :: bs)
  end.

(** A row is a label of the index together with its cells by column name. *)
Record DataFrame : Type := mkDF {
  columns : list string;
  rows : list (nat * gmap string cell)
}.

Definition has_column (df : DataFrame) (c : string) : bool :=
  bool_decide (c ∈ columns df).

(** [df.empty]: no rows or no columns. *)
Definition empty (df : DataFrame) : bool :=
  match rows df, columns df with
  | [], _ => true
  | _, [] => true
  | _, _ => false
  end.

Definition get_cell (r : gmap string cell) (c : string) : cell :=
  default Null (r !! c).

(** [df[c]]: the cells of a column, a KeyError when it is not in the schema. *)
Definition column (df : DataFrame) (c : string) : result (list cell) :=
  if has_column df c then Ok (fmap (fun r => get_cell r.2 c) (rows df))
  else Raise (KeyError c).

(** [df[c] = cells]: replaces the column, or appends it to the schema. *)
Fixpoint zip_set (c : string) (rs : list (nat * gmap string cell)) (cs : list cell)
  : list (nat * gmap string cell) :=
  match rs, cs with
  | r :: rs', v :: cs' => (r.1, <[c := v]> r.2) :: zip_set c rs' cs'
  | _, _ => []
  end.

Definition set_column (df : DataFrame) (c : string) (cs : list cell) : DataFrame :=
  {| columns := if has_column df c then columns df else columns df ++ [c];
     rows := zip_set c (rows df) cs |}.

(** [df[c] = v] with a scalar: broadcast over the rows. *)
Definition set_scalar (df : DataFrame) (c : string) (v : cell) : DataFrame :=
  set_column df c (fmap (fun _ => v) (rows df)).

(** ** Numbers *)

Definition Qzero (q : Q) : bool := Qeq_bool q 0%Q.

(** [int(x)] on a finite number truncates toward zero. *)
Definition Qtrunc (q : Q) : Z := Z.quot (Qnum q) (Zpos (Qden q)).

Definition isnull (c : cell) : bool :=
  match c with Null => true | _ => false end.

Definition fillna (v : cell) (c : cell) : cell :=
  match c with Null => v | _ => c end.

(** Elementwise [+]. *)
Definition cell_add (a b : cell) : result cell :=
  match a, b with
  | Num x, Num y => Ok (Num (x + y)%Q)
  | Num _, Null | Null, Num _ | Null, Null => Ok Null
  | Str s, Str t => Ok (Str (s ++ t))
  | _, _ => Raise TypeError
  end.

(** Elementwise [/]; a null operand gives a null. *)
Definition cell_div (a b : cell) : result cell :=
  match a, b with
  | Num x, Num y => if Qzero y then Raise ZeroDivision else Ok (Num (x / y)%Q)
  | Num _, Null | Null, Num _ | Null, Null => Ok Null
  | _, _ => Raise TypeError
  end.

(** [s.replace({0: pd.NA})]. *)
Definition replace_zero_na (c : cell) : cell :=
  match c with
  | Num q => if Qzero q then Null else c
  | _ => c
  end.

Fixpoint rzip {A} (f : cell -> cell -> result A) (xs ys : list cell) : result (list A) :=
  match xs, ys with
  | x :: xs', y :: ys' =>
      v ← f x y; vs ← rzip f xs' ys'; Ok (v :: vs)
  | _, _ => Ok []
  end.

(** ** Timestamps and calendar days *)

Definition ns_per_sec : Z := 1000000000.
Definition ns_per_day : Z := 86400 * ns_per_sec.

(** [Timestamp.date()], as days since the epoch. *)
Definition date_of_ts (t : Z) : Z := (t / ns_per_day)%Z.

(** [pd.to_datetime(date)]: midnight of that day. *)
Definition ts_of_date (d : Z) : Z := (d * ns_per_day)%Z.

(** Comparison of a cell of a datetime column with a timestamp; NaT
    compares false, anything else than a timestamp is a TypeError. *)
Definition cell_ge_ts (c : cell) (t : Z) : result bool :=
  match c with
  | Ts x => Ok (t <=? x)%Z
  | Null => Ok false
  | _ => Raise TypeError
  end.

Definition cell_le_ts (c : cell) (t : Z) : result bool :=
  match c with
  | Ts x => Ok (x <=? t)%Z
  | Null => Ok false
  | _ => Raise TypeError
  end.

(** [s.min()] and [s.max()] of a datetime column, nulls skipped. *)
Fixpoint ts_extreme (pick : Z -> Z -> Z) (cs : list cell) : result (option Z) :=
  match cs with
  | [] => Ok None
  | Ts t :: cs' =>
      m ← ts_extreme pick cs';
      Ok (Some (match m with Some u => pick t u | None => t end))
  | Null :: cs' => ts_extreme pick cs'
  | _ :: _ => Raise TypeError
  end.

(** [df[mask]]: boolean indexing keeps the index labels. *)
Fixpoint select_rows {A} (rs : list A) (mask : list bool) : list A :=
  match rs, mask with
  | r :: rs', b :: mask' =>
      if b then r :: select_rows rs' mask' else select_rows rs' mask'
  | _, _ => []
  end.

(** ** Sorting keys *)

(** The value a numeric column is ranked by; a null has no value. *)
Definition sort_key (c : cell) : result (option Q) :=
  match c with
  | Num q => Ok (Some q)
  | Null => Ok None
  | _ => Raise TypeError
  end.

(** Descending order on keys, nulls last. *)
Definition key_ge (a b : option Q) : bool :=
  match a, b with
  | Some x, Some y => Qle_bool y x
  | _, None => true
  | None, Some _ => false
  end.

Definition key_eqb (a b : option Q) : bool :=
  match a, b with
  | Some x, Some y => Qeq_bool x y
  | None, None => true
  | _, _ => false
  end.

(** The key of a row for a ranking by the column [col]. *)
Definition row_key (col : string) (r : nat * gmap string cell) : option Q :=
  match get_cell r.2 col with
  | Num q => Some q
  | _ => None
  end.

(** A stable descending sort: an element goes in front of the first one
    it is not smaller than, so equal keys keep their order. *)
Fixpoint insert_desc {A} (key : A -> option Q) (x : A) (l : list A) : list A :=
  match l with
  | [] => [x]
  | y :: l' =>
      if key_ge (key x) (key y) then x :: y :: l' else y :: insert_desc key x l'
  end.

Fixpoint sort_desc {A} (key : A -> option Q) (l : list A) : list A :=
  match l with
  | [] => []
  | x :: l' => insert_desc key x (sort_desc key l')
  end.

Section Pandas.

(** The parsers of pandas and the default (unstable) sort of numpy are not
    code of this repository: the script is modelled for any of them. *)
Variable parse_number : string -> option Q.
Variable parse_datetime : string -> option Z.
Variable argsort_desc : list (option Q) -> list nat.

(** [pd.to_datetime] on one cell of a column (errors="raise"). *)
Definition to_datetime (c : cell) : result cell :=
  match c with
  | Ts t => Ok (Ts t)
  | Null => Ok Null
  | Str s =>
      match parse_datetime s with
      | Some t => Ok (Ts t)
      | None => Raise ValueError
      end
  | Num q => Ok (Ts (Qfloor q))
  end.

(** [pd.to_numeric(errors="coerce")] on one cell. *)
Definition to_numeric (c : cell) : cell :=
  match c with
  | Num q => Num q
  | Str s =>
      match parse_number s with
      | Some q => Num q
      | None => Null
      end
  | Null => Null
  | Ts t => Num (inject_Z t)
  end.

(** Lines 36-39 on one table: [df[c] = pd.to_datetime(df[c])] when present. *)
Definition ensure_datetime (df : DataFrame) (c : string) : result DataFrame :=
  if has_column df c then
    cs ← column df c;
    ts ← rmap to_datetime cs;
    Ok (set_column df c ts)
  else Ok df.

(** Line 48. *)
Definition date_col_of (df : DataFrame) : string :=
  if has_column df "published_at" then "published_at" else "fetched_at".

(** [st.sidebar.date_input]: the chosen dates, the default value until the
    user has touched the control. *)
Definition date_input (value : list Z) (user : option (list Z)) : list Z :=
  match user with
  | Some l => l
  | None => value
  end.

(** Lines 48-59: the date range the filter will use. *)
Definition date_controls (videos_df : DataFrame) (user : option (list Z))
  : result (option Z * option Z) :=
  let date_col := date_col_of videos_df in
  if has_column videos_df date_col then
    cs ← column videos_df date_col;
    if forallb isnull cs then Ok (None, None)
    else
      lo ← ts_extreme Z.min cs;
      hi ← ts_extreme Z.max cs;
      match lo, hi with
      | Some lo, Some hi =>
          let min_date := date_of_ts lo in
          let max_date := date_of_ts hi in
          match date_input [min_date; max_date] user with
          | [start_date; end_date] => Ok (Some start_date, Some end_date)
          | _ => Ok (Some min_date, Some max_date)
          end
      | _, _ => Raise ValueError
      end
  else Ok (None, None).

(** Lines 74-79. *)
Definition filter_by_date (df : DataFrame) (start_date end_date : option Z)
    (date_col : string) : result DataFrame :=
  match start_date, end_date with
  | Some s, Some e =>
      if has_column df date_col then
        let start_ts := ts_of_date s in
        let end_ts := (ts_of_date e + ns_per_day - ns_per_sec)%Z in
        cs ← column df date_col;
        ge ← rmap (fun c => cell_ge_ts c start_ts) cs;
        le ← rmap (fun c => cell_le_ts c end_ts) cs;
        Ok {| columns := columns df;
              rows := select_rows (rows df) (zip_with andb ge le) |}
      else Ok df
  | _, _ => Ok df
  end.

(** Lines 82-85, one turn of the loop. *)
Definition coerce_column (df : DataFrame) (col : string) : result DataFrame :=
  let df := if has_column df col then df else set_scalar df col (Num 0) in
  cs ← column df col;
  Ok (set_column df col (fmap (fun c => fillna (Num 0) (to_numeric c)) cs)).

Definition numeric_columns : list string := ["views"; "likes"; "dislikes"; "comments"].

Fixpoint rfold {A B} (f : A -> B -> result A) (a : A) (l : list B) : result A :=
  match l with
  | [] => Ok a
  | b :: l' => a' ← f a b; rfold f a' l'
  end.

Definition coerce_numeric (df : DataFrame) : result DataFrame :=
  rfold coerce_column df numeric_columns.

(** Lines 88-91. *)
Definition add_engagement_rate (df : DataFrame) : result DataFrame :=
  likes ← column df "likes";
  comments ← column df "comments";
  total ← rzip cell_add likes comments;
  views ← column df "views";
  rate ← rzip cell_div total (replace_zero_na <$> views);
  Ok (set_column df "engagement_rate" (fmap (fillna (Num 0)) rate)).

(** ** Rankings *)

(** [df.nlargest(n, col)] with keep="first": descending, the first
    occurrences win the ties, nulls last; nothing for [n <= 0]. *)
Definition nlargest (n : Z) (col : string) (df : DataFrame) : result DataFrame :=
  cs ← column df col;
  _ ← rmap sort_key cs;
  Ok {| columns := columns df;
        rows := take (Z.to_nat n) (sort_desc (row_key col) (rows df)) |}.

(** [df.sort_values(col, ascending=False)]: the rows taken in the order
    numpy's argsort gives for the keys (kind="quicksort", the default). *)
Definition sort_values_desc (col : string) (df : DataFrame) : result DataFrame :=
  cs ← column df col;
  ks ← rmap sort_key cs;
  Ok {| columns := columns df;
        rows := omap (fun i => rows df !! i) (argsort_desc ks) |}.

(** [df.head(n)]: the first n rows, all but the last [-n] for a negative n. *)
Definition head (n : Z) (df : DataFrame) : DataFrame :=
  {| columns := columns df;
     rows := if (0 <=? n)%Z then take (Z.to_nat n) (rows df)
             else take (length (rows df) - Z.to_nat (- n)) (rows df) |}.

(** ** Rollups *)

(** [s.sum()], nulls skipped. *)
Fixpoint cells_sum (cs : list cell) : result Q :=
  match cs with
  | [] => Ok 0%Q
  | Num q :: cs' => s ← cells_sum cs'; Ok (q + s)%Q
  | Null :: cs' => cells_sum cs'
  | _ :: _ => Raise TypeError
  end.

Definition count_notnull (cs : list cell) : nat :=
  length (filter (fun c => isnull c = false) cs).

(** [s.mean()]: NaN when there is no value. *)
Definition cells_mean (cs : list cell) : result cell :=
  s ← cells_sum cs;
  match count_notnull cs with
  | O => Ok Null
  | S k => Ok (Num (s / inject_Z (Z.of_nat (S k)))%Q)
  end.

Record totals : Type := mkTotals {
  total_likes : Z;
  total_dislikes : Z;
  total_comments : Z;
  total_views_filtered : Z;
  avg_engagement : cell
}.

(** Lines 126-130. *)
Definition engagement_totals (filtered_videos : DataFrame) : result totals :=
  likes ← column filtered_videos "likes";
  l ← cells_sum likes;
  dislikes ← column filtered_videos "dislikes";
  d ← cells_sum dislikes;
  comments ← column filtered_videos "comments";
  c ← cells_sum comments;
  views ← column filtered_videos "views";
  v ← cells_sum views;
  a ← (if negb (empty filtered_videos) then
         rate ← column filtered_videos "engagement_rate";
         cells_mean rate
       else Ok (Num 0));
  Ok {| total_likes := Qtrunc l; total_dislikes := Qtrunc d;
        total_comments := Qtrunc c; total_views_filtered := Qtrunc v;
        avg_engagement := a |}.

(** [s.idxmax()]: the label of the first largest value, nulls skipped. *)
Fixpoint first_max (best : option (nat * Q)) (ks : list (option Q * nat))
  : option (nat * Q) :=
  match ks with
  | [] => best
  | (None, _) :: ks' => first_max best ks'
  | (Some q, l) :: ks' =>
      match best with
      | None => first_max (Some (l, q)) ks'
      | Some (_, b) =>
          if Qle_bool q b then first_max best ks' else first_max (Some (l, q)) ks'
      end
  end.

Definition idxmax (df : DataFrame) (col : string) : result nat :=
  cs ← column df col;
  ks ← rmap sort_key cs;
  match first_max None (zip ks (fmap fst (rows df))) with
  | Some (l, _) => Ok l
  | None => Raise ValueError
  end.

(** [df.loc[label]]. *)
Definition loc (df : DataFrame) (label : nat) : result (gmap string cell) :=
  match find (fun r => Nat.eqb r.1 label) (rows df) with
  | Some r => Ok r.2
  | None => Raise (KeyError "label")
  end.

Definition row_of_max (df : DataFrame) (col : string) : result (gmap string cell) :=
  l ← idxmax df col;
  loc df l.

Record highlights : Type := mkHighlights {
  mv : option (gmap string cell);
  ml : option (gmap string cell);
  md : option (gmap string cell)
}.

(** Lines 144-151: from the filtered table, from the table as loaded when
    the filter left nothing. *)
Definition most_of (videos_df filtered_videos : DataFrame) : result highlights :=
  if negb (empty filtered_videos) then
    v ← row_of_max filtered_videos "views";
    l ← row_of_max filtered_videos "likes";
    d ← row_of_max filtered_videos "dislikes";
    Ok {| mv := Some v; ml := Some l; md := Some d |}
  else
    v ← (if negb (empty videos_df) then r ← row_of_max videos_df "views"; Ok (Some r)
         else Ok None);
    l ← (if negb (empty videos_df) then r ← row_of_max videos_df "likes"; Ok (Some r)
         else Ok None);
    d ← (if negb (empty videos_df) then r ← row_of_max videos_df "dislikes"; Ok (Some r)
         else Ok None);
    Ok {| mv := v; ml := l; md := d |}.

(** ** Channel KPI *)

(** [s.iloc[0]]. *)
Definition iloc0 (cs : list cell) : result cell :=
  match cs with
  | c :: _ => Ok c
  | [] => Raise IndexError
  end.

(** Python's [max(a, 1)]: [1] when [1 > a], else [a]; NaN compares false. *)
Definition max_with_one (a : cell) : result cell :=
  match a with
  | Num q => Ok (if Qle_bool 1 q then Num q else Num 1)
  | Null => Ok Null
  | _ => Raise TypeError
  end.

(** Lines 116-120: [None] stands for the "N/A" of the except branch. *)
Definition avg_views (channel_df : DataFrame) : option cell :=
  match (tv ← column channel_df "total_views";
         v ← iloc0 tv;
         tn ← column channel_df "total_videos";
         n ← iloc0 tn;
         m ← max_with_one n;
         cell_div v m) with
  | Ok a => Some a
  | Raise _ => None
  end.

(** ** The script

    The tables are objects of a store: [videos_df.copy()] and boolean
    indexing allocate a new table, [df[c] = ...] updates the table the
    variable refers to.  The store also records every ranking the script
    asks for, with its field and its count. *)

Record world : Type := mkWorld {
  heap : gmap nat DataFrame;
  next : nat;
  rankings : list (string * Z)
}.

Definition M (A : Type) : Type := world -> result A * world.

#[global] Instance M_ret : MRet M := fun A a w => (Ok a, w).
#[global] Instance M_bind : MBind M := fun A B k m w =>
  match m w with
  | (Ok a, w') => k a w'
  | (Raise e, w') => (Raise e, w')
  end.

Definition lift {A} (r : result A) : M A := fun w => (r, w).

Definition alloc (df : DataFrame) : M nat := fun w =>
  (Ok (next w),
   {| heap := <[next w := df]> (heap w); next := S (next w); rankings := rankings w |}).

Definition read (l : nat) : M DataFrame := fun w =>
  (match heap w !! l with
   | Some df => Ok df
   | None => Raise (KeyError "object")
   end, w).

Definition write (l : nat) (df : DataFrame) : M unit := fun w =>
  (Ok tt, {| heap := <[l := df]> (heap w); next := next w; rankings := rankings w |}).

(** An assignment into the table at [l]; a raise leaves it as it was. *)
Definition update (l : nat) (f : DataFrame -> result DataFrame) : M unit :=
  df ← read l;
  df' ← lift (f df);
  write l df'.

Definition ranked (field : string) (n : Z) : M unit := fun w =>
  (Ok tt, {| heap := heap w; next := next w; rankings := rankings w ++ [(field, n)] |}).

(** What [load_tables] returns. *)
Record tables : Type := mkTables {
  channel_latest : DataFrame;
  channel_history : DataFrame;
  videos : DataFrame
}.

(** The sidebar: [None] is a control the user has not touched. *)
Record controls : Type := mkControls {
  date_choice : option (list Z);
  top_n_choice : option Z;
  refresh_clicked : bool
}.

(** [st.sidebar.slider]: the chosen value, [value] by default. *)
Definition slider (min_value max_value value : Z) (user : option Z) : Z :=
  match user with
  | Some v => v
  | None => value
  end.

(** The widget only offers the values from [min_value] to [max_value]. *)
Definition slider_choice_ok (min_value max_value : Z) (user : option Z) : Prop :=
  match user with
  | Some v => (min_value <= v <= max_value)%Z
  | None => True
  end.

Record report : Type := mkReport {
  r_top_n : Z;
  r_filtered_videos : DataFrame;
  r_df_top_n : DataFrame;
  r_avg_views : option cell;
  r_totals : totals;
  r_most : highlights;
  r_top_eng : DataFrame;
  r_top_likes : DataFrame;
  r_top_dislikes : option DataFrame
}.

Definition dislikes_positive (df : DataFrame) : result bool :=
  cs ← column df "dislikes";
  s ← cells_sum cs;
  Ok (negb (Qle_bool s 0)).

(** Lines 48-237 on the three loaded tables; charts, metric cards and the
    table widget only display these values. *)
Definition render (channel_df channel_history_df videos_df : nat) (ui : controls)
  : M report :=
  (* 48-59 *)
  loaded ← read videos_df;
  let date_col := date_col_of loaded in
  range ← lift (date_controls loaded (date_choice ui));
  (* 61 *)
  let top_n := slider 3 50 10 (top_n_choice ui) in
  (* 64-66 *)
  _ ← (if refresh_clicked ui then lift (Raise RerunException) else mret tt) : M unit;
  (* 73-79 *)
  filtered_videos ← alloc loaded;
  filtered_videos ←
    (match range with
     | (Some _, Some _) =>
         if has_column loaded date_col then
           kept ← lift (filter_by_date loaded range.1 range.2 date_col);
           alloc kept
         else mret filtered_videos
     | _ => mret filtered_videos
     end) : M nat;
  (* 82-85 *)
  _ ← update filtered_videos (fun df => coerce_column df "views");
  _ ← update filtered_videos (fun df => coerce_column df "likes");
  _ ← update filtered_videos (fun df => coerce_column df "dislikes");
  _ ← update filtered_videos (fun df => coerce_column df "comments");
  (* 88-91 *)
  _ ← update filtered_videos add_engagement_rate;
  (* 94 *)
  fv ← read filtered_videos;
  _ ← ranked "views" top_n;
  df_top_n ← lift (nlargest top_n "views" fv);
  _ ← alloc df_top_n;
  (* 116-120 *)
  latest ← read channel_df;
  let kpi := avg_views latest in
  (* 126-130 *)
  sums ← lift (engagement_totals fv);
  (* 144-151 *)
  loaded ← read videos_df;
  most ← lift (most_of loaded fv);
  (* 171-173 *)
  history ← read channel_history_df;
  _ ← (if negb (empty history) && has_column history "fetched_at" then
         ch ← alloc history;
         update ch (fun df => ensure_datetime df "fetched_at")
       else mret tt) : M unit;
  (* 203 *)
  _ ← ranked "engagement_rate" top_n;
  sorted ← lift (sort_values_desc "engagement_rate" fv);
  let top_eng := head top_n sorted in
  (* 223 *)
  _ ← ranked "likes" 10;
  top_likes ← lift (nlargest 10 "likes" fv);
  (* 232-234 *)
  some_dislikes ← lift (dislikes_positive fv);
  top_dislikes ←
    (if (some_dislikes : bool) then
       _ ← ranked "dislikes" 10;
       top ← lift (nlargest 10 "dislikes" fv);
       mret (Some top)
     else mret None) : M (option DataFrame);
  mret {| r_top_n := top_n; r_filtered_videos := fv; r_df_top_n := df_top_n;
          r_avg_views := kpi; r_totals := sums; r_most := most;
          r_top_eng := top_eng; r_top_likes := top_likes;
          r_top_dislikes := top_dislikes |}.

(** Lines 31-39, then the rest of the script on the loaded tables. *)
Definition script (db : tables) (ui : controls) : M report :=
  (* 31 *)
  channel_df ← alloc (channel_latest db);
  channel_history_df ← alloc (channel_history db);
  videos_df ← alloc (videos db);
  (* 34-39 *)
  _ ← update channel_history_df (fun df => ensure_datetime df "fetched_at");
  _ ← update videos_df (fun df => ensure_datetime df "fetched_at");
  _ ← update videos_df (fun df => ensure_datetime df "published_at");
  render channel_df channel_history_df videos_df ui.

Definition boot : world := {| heap := ∅; next := 0; rankings := [] |}.

(** [v] is the table [d] after the assignments of lines 34-39 for the
    columns [cols] that the run has reached. *)
Fixpoint converted (cols : list string) (d v : DataFrame) : Prop :=
  v = d \/
  match cols with
  | [] => False
  | c :: cols' => exists d', ensure_datetime d c = Ok d' /\ converted cols' d' v
  end.

End Pandas.

(** ** Reading the tables *)

(** The number in a cell, zero when there is none. *)
Definition num_at (r : gmap string cell) (c : string) : Q :=
  match get_cell r c with
  | Num q => q
  | _ => 0%Q
  end.

(** The engagement rate of a row of numbers. *)
Definition rate_of (r : gmap string cell) : Q :=
  if Qzero (num_at r "views") then 0%Q
  else ((num_at r "likes" + num_at r "comments") / num_at r "views")%Q.

(** The schema after [df[c] = ...]. *)
Definition add_column (cols : list string) (c : string) : list string :=
  if bool_decide (c ∈ cols) then cols else cols ++ [c].

Section Readings.

Variable parse_number : string -> option Q.

(** The number lines 82-85 leave in a column for a row of the table [df]. *)
Definition coerced_at (df : DataFrame) (c : string) (r : gmap string cell) : Q :=
  if has_column df c then
    match to_numeric parse_number (get_cell r c) with
    | Num q => q
    | _ => 0%Q
    end
  else 0%Q.

Definition coerce_row (df : DataFrame) (r : gmap string cell) : gmap string cell :=
  <["comments" := Num (coerced_at df "comments" r)]>
    (<["dislikes" := Num (coerced_at df "dislikes" r)]>
       (<["likes" := Num (coerced_at df "likes" r)]>
          (<["views" := Num (coerced_at df "views" r)]> r))).

End Readings.

(** A row whose four counts are numbers. *)
Definition numeric_row (r : gmap string cell) : Prop :=
  forall c, c ∈ ["views"; "likes"; "dislikes"; "comments"] ->
    exists q, r !! c = Some (Num q).

(** A column of datetime type: timestamps and NaT only, as lines 36-39
    leave the date columns. *)
Definition is_datetime (c : cell) : bool :=
  match c with
  | Ts _ | Null => true
  | _ => false
  end.

Definition datetime_column (df : DataFrame) (col : string) : bool :=
  forallb (fun r => is_datetime (get_cell r.2 col)) (rows df).

(** The instant [h:m:s] of day [d]. *)
Definition clock (d h m s : Z) : Z :=
  (ts_of_date d + ((h * 60 + m) * 60 + s) * ns_per_sec)%Z.

(** A timestamp from midnight of day [s] to 23:59:59 of day [e]. *)
Definition between (s e : Z) (c : cell) : bool :=
  match c with
  | Ts t => (clock s 0 0 0 <=? t)%Z && (t <=? clock e 23 59 59)%Z
  | _ => false
  end.

(** A column that can be ranked: numbers and nulls. *)
Definition sortable_column (df : DataFrame) (col : string) : bool :=
  has_column df col
  && forallb (fun r => match get_cell r.2 col with Num _ | Null => true | _ => false end)
       (rows df).

(** What numpy promises of an argsort, whatever its kind: the positions of
    the keys, each once, in an order in which the keys do not increase.
    Only kind="stable" promises more. *)
Definition key_at (ks : list (option Q)) (i : nat) : option Q :=
  default None (ks !! i).

Definition argsort_contract (argsort : list (option Q) -> list nat) : Prop :=
  forall ks,
    argsort ks ≡ₚ seq 0 (length ks) /\
    Sorted (fun i j => key_ge (key_at ks i) (key_at ks j) = true) (argsort ks).

(** Rows in descending order of their key. *)
Definition descending (col : string) (rs : list (nat * gmap string cell)) : Prop :=
  StronglySorted (fun a b => key_ge (row_key col a) (row_key col b) = true) rs.

(** [top] is a top-n of the table for [col]: min(n, len) rows in descending
    order, none smaller than a row that was left out. *)
Definition is_top_n (col : string) (n : nat) (df top : DataFrame) : Prop :=
  columns top = columns df /\
  length (rows top) = min n (length (rows df)) /\
  descending col (rows top) /\
  exists rest, rows df ≡ₚ rows top ++ rest /\
    forall a b, a ∈ rows top -> b ∈ rest ->
      key_ge (row_key col a) (row_key col b) = true.

(** The rows whose key for [col] is [v], in the order of the table. *)
Definition tied (col : string) (v : option Q) (rs : list (nat * gmap string cell))
  : list (nat * gmap string cell) :=
  filter (fun r => key_eqb (row_key col r) v) rs.

(** ** Outcomes *)

Definition is_ok {A} (r : result A) : bool :=
  match r with Ok _ => true | Raise _ => false end.

(** The value of an outcome, [d] for a raise. *)
Definition value {A} (d : A) (r : result A) : A :=
  match r with Ok a => a | Raise _ => d end.

Definition blank : DataFrame := {| columns := []; rows := [] |}.

Definition blank_report : report :=
  {| r_top_n := 0; r_filtered_videos := blank; r_df_top_n := blank;
     r_avg_views := None;
     r_totals := {| total_likes := 0; total_dislikes := 0; total_comments := 0;
                    total_views_filtered := 0; avg_engagement := Null |};
     r_most := {| mv := None; ml := None; md := None |};
     r_top_eng := blank; r_top_likes := blank; r_top_dislikes := None |}.

(** The report of a run that has returned. *)
Definition report_of (run : result report * world) : report :=
  value blank_report run.1.

(** ** What a run keeps *)

(** The store as the rest of a run may leave it: nothing below [base] is
    touched, no location is given back, every logged ranking satisfies
    [P]. *)
Definition kept (base : nat) (H0 : gmap nat DataFrame) (P : string * Z -> Prop)
    (w : world) : Prop :=
  base <= next w /\
  (forall l, l < base -> heap w !! l = H0 !! l) /\
  Forall P (rankings w).

(** [m] keeps the store in that state, raising or not, and a value it
    returns satisfies [Q]. *)
Definition keeps (base : nat) (H0 : gmap nat DataFrame) (P : string * Z -> Prop)
    {A} (m : M A) (Q : A -> Prop) : Prop :=
  forall w, kept base H0 P w ->
    kept base H0 P (m w).2 /\ forall a, (m w).1 = Ok a -> Q a.

(** A date column that lines 34-39 have nothing to convert in: absent, or
    holding timestamps and NaT in every row. *)
Definition already_datetime (df : DataFrame) (c : string) : bool :=
  negb (has_column df c)
  || forallb (fun r => match r.2 !! c with
                       | Some (Ts _) | Some Null => true
                       | _ => false
                       end) (rows df).

(** ** Sample tables *)

Module Samples.

(** Parsers that know no string, and one that reads a single date. *)
Definition no_number : string -> option Q := fun _ => None.
Definition no_date : string -> option Z := fun _ => None.

(** Two argsorts within numpy's promise: one keeps equal keys in their
    order, the other puts the later of two equal keys first. *)
Definition argsort_first (ks : list (option Q)) : list nat :=
  snd <$> sort_desc fst (zip ks (seq 0 (length ks))).

Definition argsort_last (ks : list (option Q)) : list nat :=
  snd <$> sort_desc fst (reverse (zip ks (seq 0 (length ks)))).

Definition video (label : nat) (title : string) (views likes dislikes comments : Z)
    (published_day : Z) : nat * gmap string cell :=
  (label,
   <["title" := Str title]>
     (<["views" := Num (inject_Z views)]>
        (<["likes" := Num (inject_Z likes)]>
           (<["dislikes" := Num (inject_Z dislikes)]>
              (<["comments" := Num (inject_Z comments)]>
                 (<["published_at" := Ts (ts_of_date published_day)]> ∅)))))).

Definition video_columns : list string :=
  ["title"; "views"; "likes"; "dislikes"; "comments"; "published_at"].

(** One row whose like count is negative. *)
Definition negative_likes : DataFrame :=
  {| columns := video_columns; rows := [video 0 "A" 10 (-3) 0 0 0] |}.

Definition dated (c : cell) (r : nat * gmap string cell) : nat * gmap string cell :=
  (r.1, <["published_at" := c]> r.2).

(** Day 3 at 00:00:00, at 12:30:00 and at 23:59:59, day 4 at 00:00:00, day 2
    at 23:59:59 and a video without a date. *)
Definition dated_videos : DataFrame :=
  {| columns := video_columns;
     rows := [ video 0 "A" 100 10 1 5 3;
               dated (Ts (clock 3 12 30 0)) (video 1 "B" 50 5 0 1 3);
               dated (Ts (clock 3 23 59 59)) (video 2 "C" 70 7 2 0 3);
               video 3 "D" 20 2 0 0 4;
               dated (Ts (clock 2 23 59 59)) (video 4 "E" 30 1 0 0 2);
               dated Null (video 5 "F" 10 1 0 0 0) ] |}.

(** Two videos nobody has seen: both engagement rates are 0. *)
Definition unseen_videos : DataFrame :=
  {| columns := video_columns;
     rows := [video 0 "A" 0 0 0 0 1; video 1 "B" 0 0 0 0 2] |}.

(** A parser that reads the one date string of the sample below. *)
Definition fourth_of_january (s : string) : option Z :=
  if String.eqb s "1970-01-04" then Some (ts_of_date 3) else None.

(** A video table whose fetch time came out of the database as text. *)
Definition text_dated_videos : DataFrame :=
  {| columns := ["title"; "views"; "likes"; "dislikes"; "comments"; "fetched_at"];
     rows := [(0, <["title" := Str "A"]>
                    (<["views" := Num 100]>
                       (<["likes" := Num 10]>
                          (<["dislikes" := Num 1]>
                             (<["comments" := Num 5]>
                                (<["fetched_at" := Str "1970-01-04"]> ∅))))))] |}.

(** Videos published on day 1 and on day 9, none in between. *)
Definition sparse_videos : DataFrame :=
  {| columns := video_columns;
     rows := [video 0 "A" 100 10 1 5 1; video 1 "B" 40 8 3 2 9] |}.

(** The filtered table when no video is in the chosen range. *)
Definition nothing_left : DataFrame :=
  {| columns := video_columns ++ ["engagement_rate"]; rows := [] |}.

Definition snapshot (label : nat) (subscribers total_views total_videos : Z)
    (fetched_day : Z) : nat * gmap string cell :=
  (label,
   <["subscribers" := Num (inject_Z subscribers)]>
     (<["total_views" := Num (inject_Z total_views)]>
        (<["total_videos" := Num (inject_Z total_videos)]>
           (<["fetched_at" := Ts (ts_of_date fetched_day)]> ∅)))).

Definition channel_columns : list string :=
  ["subscribers"; "total_views"; "total_videos"; "fetched_at"].

(** A channel of 500 views that has no video yet. *)
Definition new_channel : DataFrame :=
  {| columns := channel_columns; rows := [snapshot 0 7 500 0 0] |}.

Definition untouched : controls :=
  {| date_choice := None; top_n_choice := None; refresh_clicked := false |}.

Definition text_dated_db : tables :=
  {| channel_latest := new_channel; channel_history := new_channel;
     videos := text_dated_videos |}.

(** The user picks day 5 alone. *)
Definition day_five : controls :=
  {| date_choice := Some [5; 5]%Z; top_n_choice := Some 3%Z; refresh_clicked := false |}.

Definition sparse_db : tables :=
  {| channel_latest := new_channel; channel_history := new_channel;
     videos := sparse_videos |}.

(** Videos loaded without any date column. *)
Definition undated_videos : DataFrame :=
  {| columns := ["title"; "views"];
     rows := [(0, <["title" := Str "A"]> (<["views" := Num 100]> ∅));
              (1, <["title" := Str "B"]> (<["views" := Num 40]> ∅))] |}.

(** The user asks for three videos out of four. *)
Definition top_three : controls :=
  {| date_choice := None; top_n_choice := Some 3%Z; refresh_clicked := false |}.

Definition four_videos : DataFrame :=
  {| columns := video_columns;
     rows := [ video 0 "A" 100 10 1 5 1; video 1 "B" 40 8 3 2 2;
               video 2 "C" 70 7 2 0 3; video 3 "D" 20 2 0 0 4 ] |}.

Definition four_db : tables :=
  {| channel_latest := new_channel; channel_history := new_channel;
     videos := four_videos |}.

(** The run of the script on these four videos, and the rankings of the
    two unseen videos with the argsort that turns equal keys round. *)
Definition four_run : result report * world :=
  script no_number no_date argsort_first four_db top_three boot.

Definition sparse_run : result report * world :=
  script no_number no_date argsort_first sparse_db day_five boot.

Definition unseen_ranking : result (DataFrame * DataFrame) :=
  cf ← coerce_numeric no_number unseen_videos;
  ef ← add_engagement_rate cf;
  sorted ← sort_values_desc argsort_last "engagement_rate" ef;
  Ok (ef, head 3 sorted).

(** The text-dated table once more, with a fetch time no parser reads. *)
Definition ill_dated_videos : DataFrame :=
  {| columns := ["title"; "fetched_at"];
     rows := [(0, <["title" := Str "A"]> (<["fetched_at" := Str "1970-01-04"]> ∅));
              (1, <["title" := Str "B"]> (<["fetched_at" := Str "yesterday"]> ∅))] |}.

(** The user presses the refresh button. *)
Definition refreshing : controls :=
  {| date_choice := None; top_n_choice := None; refresh_clicked := true |}.

End Samples.

(** ** Further readings of the tables *)

(** The timestamps of a column, nulls left out. *)
Definition timestamps (cs : list cell) : list Z :=
  omap (fun c => match c with Ts t => Some t | _ => None end) cs.

Definition date_cells (df : DataFrame) : list cell :=
  (fun r => get_cell r.2 (date_col_of df)) <$> rows df.

(** The time of day of a timestamp, in nanoseconds. *)
Definition time_of_day (t : Z) : Z := (t mod ns_per_day)%Z.

(** The range the date control yields for a choice of the user, given
    the first and the last day of the table. *)
Definition chosen_range (user : option (list Z)) (min_date max_date : Z) : Z * Z :=
  match user with
  | Some [a; b] => (a, b)
  | _ => (min_date, max_date)
  end.

(** Lines 48-79 as one step: the range of the controls, then the filter. *)
Definition date_filtered (df : DataFrame) (user : option (list Z)) : result DataFrame :=
  range ← date_controls df user;
  filter_by_date df range.1 range.2 (date_col_of df).

(** Lines 82-91 as one step: the coercion, then the engagement rate. *)
Definition prepare (parse_number : string -> option Q) (df : DataFrame)
  : result DataFrame :=
  cf ← coerce_numeric parse_number df;
  add_engagement_rate cf.

(** A row as lines 82-91 leave it. *)
Definition prepared_row (parse_number : string -> option Q) (df : DataFrame)
    (r : gmap string cell) : gmap string cell :=
  <["engagement_rate" := Num (rate_of (coerce_row parse_number df r))]>
    (coerce_row parse_number df r).

Definition prepared_columns (df : DataFrame) : list string :=
  add_column (foldl add_column (columns df) numeric_columns) "engagement_rate".

(** The sum of a reading over the rows, in the order pandas adds them. *)
Definition sum_of (f : gmap string cell -> Q) (rs : list (nat * gmap string cell)) : Q :=
  foldr (fun r acc => (f r.2 + acc)%Q) 0%Q rs.

(** ** The table of line 242 *)

(** [df[cols]]: the listed columns only, a KeyError for one the schema
    lacks. *)
Definition select_columns (df : DataFrame) (cols : list string) : result DataFrame :=
  match find (fun c => negb (has_column df c)) cols with
  | Some c => Raise (KeyError c)
  | None =>
      Ok {| columns := cols;
            rows := (fun r => (r.1, filter (fun kv => kv.1 ∈ cols) r.2)) <$> rows df |}
  end.

(** [df.reset_index(drop=True)]: the rows are labelled from 0 anew. *)
Definition reset_index (df : DataFrame) : DataFrame :=
  {| columns := columns df;
     rows := zip (seq 0 (length (rows df))) (snd <$> rows df) |}.

Definition table_cols (date_col : string) (filtered_videos : DataFrame) : list string :=
  if has_column filtered_videos date_col
  then ["title"; "views"; "likes"; "dislikes"; "comments"; date_col]
  else ["title"; "views"; "likes"; "dislikes"; "comments"].

(** Lines 241-242. *)
Definition latest_video_table (date_col : string) (filtered_videos : DataFrame)
  : result DataFrame :=
  t ← select_columns filtered_videos (table_cols date_col filtered_videos);
  Ok (reset_index t).

(** A cell Python's arithmetic of line 117 accepts: a number or NaN. *)
Definition number_or_nan (c : cell) : bool :=
  match c with
  | Num _ | Null => true
  | _ => false
  end.

(** * Properties *)

Lemma is_ok_value {A} (d : A) (r : result A) : is_ok r = true -> r = Ok (value d r).
Proof. by destruct r. Qed.

Lemma run_returned (run : result report * world) :
  is_ok run.1 = true -> run = (Ok (report_of run), run.2).
Proof. destruct run as [[rep|e] w]; by simpl. Qed.

Lemma rmap_ok {A B} (f : A -> result B) (g : A -> B) (l : list A) :
  (forall a, a ∈ l -> f a = Ok (g a)) -> rmap f l = Ok (g <$> l).
Proof.
  induction l as [|a l IH]; intros H; csimpl; [done|].
  rewrite (H a) by apply list_elem_of_here. csimpl.
  rewrite IH; [done|]. intros b Hb. apply H. by apply list_elem_of_further.
Qed.

Lemma zip_set_fmap (c : string) (g : nat * gmap string cell -> cell)
    (rs : list (nat * gmap string cell)) :
  zip_set c rs (g <$> rs) = (fun r => (r.1, <[c := g r]> r.2)) <$> rs.
Proof. induction rs as [|r rs IH]; csimpl; [done|]. by rewrite IH. Qed.

Lemma has_column_true (df : DataFrame) (c : string) :
  has_column df c = true <-> c ∈ columns df.
Proof. unfold has_column. apply bool_decide_eq_true. Qed.

Lemma has_column_set_column (df : DataFrame) (c c' : string) (cs : list cell) :
  has_column (set_column df c cs) c' = has_column df c' || bool_decide (c' = c).
Proof.
  unfold set_column, has_column at 1 3. simpl.
  destruct (has_column df c) eqn:Hc.
  - apply has_column_true in Hc.
    destruct (bool_decide_reflect (c' = c)) as [->|Hne].
    + rewrite orb_true_r. by apply bool_decide_eq_true.
    + by rewrite orb_false_r.
  - apply eq_true_iff_eq. rewrite orb_true_iff, !bool_decide_eq_true.
    rewrite elem_of_app, list_elem_of_singleton. tauto.
Qed.

Lemma column_fmap (df : DataFrame) (c : string) :
  has_column df c = true ->
  column df c = Ok ((fun r => get_cell r.2 c) <$> rows df).
Proof. intros H. unfold column. by rewrite H. Qed.

Lemma set_column_fmap (df : DataFrame) (c : string)
    (g : nat * gmap string cell -> cell) :
  set_column df c (g <$> rows df)
  = {| columns := if has_column df c then columns df else columns df ++ [c];
       rows := (fun r => (r.1, <[c := g r]> r.2)) <$> rows df |}.
Proof. unfold set_column. by rewrite zip_set_fmap. Qed.

Lemma get_cell_insert (r : gmap string cell) (c c' : string) (v : cell) :
  get_cell (<[c := v]> r) c' = if bool_decide (c' = c) then v else get_cell r c'.
Proof.
  unfold get_cell. case_bool_decide as H.
  - subst. by rewrite lookup_insert_eq.
  - by rewrite lookup_insert_ne.
Qed.

Lemma elem_of_add_column (cols : list string) (c c' : string) :
  c' ∈ add_column cols c <-> c' ∈ cols \/ c' = c.
Proof.
  unfold add_column. case_bool_decide as H.
  - split; [tauto|]. intros [?| ->]; done.
  - rewrite elem_of_app, list_elem_of_singleton. tauto.
Qed.

Lemma bool_decide_add_column (cols : list string) (c c' : string) :
  bool_decide (c' ∈ add_column cols c)
  = bool_decide (c' ∈ cols) || bool_decide (c' = c).
Proof.
  apply eq_true_iff_eq.
  rewrite orb_true_iff, !bool_decide_eq_true. apply elem_of_add_column.
Qed.

Lemma has_column_add (cols : list string) rs (c c' : string) :
  has_column {| columns := add_column cols c; rows := rs |} c'
  = bool_decide (c' ∈ cols) || bool_decide (c' = c).
Proof. unfold has_column. simpl. apply bool_decide_add_column. Qed.

Lemma rzip_ok {A B} (f : cell -> cell -> result B) (g1 g2 : A -> cell)
    (h : A -> B) (l : list A) :
  (forall a, a ∈ l -> f (g1 a) (g2 a) = Ok (h a)) ->
  rzip f (g1 <$> l) (g2 <$> l) = Ok (h <$> l).
Proof.
  induction l as [|a l IH]; intros H; csimpl; [done|].
  rewrite (H a) by apply list_elem_of_here. csimpl.
  rewrite IH; [done|]. intros b Hb. apply H. by apply list_elem_of_further.
Qed.

Section Coercion.

Variable parse_number : string -> option Q.

Lemma to_numeric_fillna (c : cell) :
  fillna (Num 0) (to_numeric parse_number c)
  = Num (match to_numeric parse_number c with Num q => q | _ => 0%Q end).
Proof. destruct c as [q|s| |t]; simpl; try done. by destruct (parse_number s). Qed.

Lemma coerce_column_eq (df : DataFrame) (col : string) :
  coerce_column parse_number df col
  = Ok {| columns := add_column (columns df) col;
          rows := (fun r => (r.1, <[col := Num (coerced_at parse_number df col r.2)]> r.2))
                    <$> rows df |}.
Proof.
  unfold coerce_column, coerced_at, add_column.
  destruct (has_column df col) eqn:Hc.
  - rewrite column_fmap by done. csimpl.
    rewrite <- list_fmap_compose, set_column_fmap, Hc.
    unfold has_column in Hc. rewrite Hc. do 2 f_equal.
    apply list_fmap_ext. intros i r _. simpl. by rewrite to_numeric_fillna.
  - unfold set_scalar. rewrite set_column_fmap, Hc.
    assert (Hin : has_column {| columns := columns df ++ [col];
                    rows := (fun r => (r.1, <[col := Num 0]> r.2)) <$> rows df |} col = true).
    { apply has_column_true. simpl. apply elem_of_app. right. by apply list_elem_of_singleton. }
    rewrite column_fmap by done. csimpl.
    rewrite <- !list_fmap_compose.
    unfold set_column. rewrite Hin. simpl.
    unfold has_column in Hc. rewrite Hc. do 2 f_equal.
    generalize (rows df). intros rs. induction rs as [|r rs IH]; csimpl; [done|].
    rewrite IH. f_equal. f_equal.
    rewrite get_cell_insert, bool_decide_eq_true_2 by done. simpl.
    apply insert_insert_eq.
Qed.

Lemma coerced_at_ext (df df' : DataFrame) (c : string) (r r' : gmap string cell) :
  has_column df c = has_column df' c -> get_cell r c = get_cell r' c ->
  coerced_at parse_number df c r = coerced_at parse_number df' c r'.
Proof. unfold coerced_at. by intros -> ->. Qed.

Lemma coerce_numeric_eq (df : DataFrame) :
  coerce_numeric parse_number df
  = Ok {| columns := foldl add_column (columns df) numeric_columns;
          rows := (fun r => (r.1, coerce_row parse_number df r.2)) <$> rows df |}.
Proof.
  unfold coerce_numeric, numeric_columns. simpl rfold.
  rewrite coerce_column_eq. csimpl.
  rewrite coerce_column_eq. csimpl.
  rewrite coerce_column_eq. csimpl.
  rewrite coerce_column_eq. csimpl.
  rewrite <- !list_fmap_compose. do 2 f_equal.
  apply list_fmap_ext. intros i [l r] _. simpl. f_equal. unfold coerce_row.
  assert (Hins : forall k a b (m1 m2 : gmap string cell),
             a = b -> m1 = m2 -> <[k := Num a]> m1 = <[k := Num b]> m2)
    by (by intros k a b m1 m2 -> ->).
  repeat apply Hins; try reflexivity;
    apply coerced_at_ext;
    rewrite ?has_column_add, ?get_cell_insert, ?bool_decide_add_column;
    repeat (rewrite (bool_decide_eq_false_2 (_ = _)) by done);
    rewrite ?orb_false_r; done.
Qed.

Lemma coerce_row_lookup (df : DataFrame) (r : gmap string cell) (c : string) :
  c ∈ numeric_columns ->
  coerce_row parse_number df r !! c = Some (Num (coerced_at parse_number df c r)).
Proof.
  unfold numeric_columns. rewrite !elem_of_cons, elem_of_nil.
  unfold coerce_row. intros [->|[->|[->|[->|[]]]]]; by simplify_map_eq.
Qed.

Lemma coerce_row_other (df : DataFrame) (r : gmap string cell) (c : string) :
  c ∉ numeric_columns -> coerce_row parse_number df r !! c = r !! c.
Proof.
  unfold numeric_columns. rewrite !not_elem_of_cons. intros (?&?&?&?&_).
  unfold coerce_row. by rewrite !lookup_insert_ne.
Qed.

(** C7: the coercion of lines 82-85 never raises and leaves a number in
    each of views, likes, dislikes and comments of every row: zero when the
    column was not in the schema, zero for a null or a string that is no
    number, the number itself otherwise. *)
Theorem coerce_numeric_defined (df : DataFrame) :
  exists out, coerce_numeric parse_number df = Ok out /\
    (forall c, c ∈ numeric_columns -> has_column out c = true) /\
    length (rows out) = length (rows df) /\
    forall i r c, rows df !! i = Some r -> c ∈ numeric_columns ->
      exists r' q, rows out !! i = Some r' /\ r'.1 = r.1 /\
        r'.2 !! c = Some (Num q) /\
        (has_column df c = false -> q = 0%Q) /\
        (has_column df c = true ->
           match get_cell r.2 c with
           | Num x => q = x
           | Null => q = 0%Q
           | Str s => match parse_number s with Some x => q = x | None => q = 0%Q end
           | Ts t => q = inject_Z t
           end).
Proof.
  eexists. split; [apply coerce_numeric_eq|]. split; [|split].
  - intros c Hc. apply has_column_true. simpl.
    rewrite !elem_of_add_column.
    revert Hc. unfold numeric_columns. rewrite !elem_of_cons, elem_of_nil. tauto.
  - simpl. by rewrite length_fmap.
  - intros i r c Hr Hc. simpl.
    exists (r.1, coerce_row parse_number df r.2), (coerced_at parse_number df c r.2).
    split; [by rewrite list_lookup_fmap, Hr|]. split; [done|].
    split; [by apply coerce_row_lookup|].
    unfold coerced_at. split; intros ->; [done|].
    destruct (get_cell r.2 c) as [q|s| |t]; simpl; try done.
    by destruct (parse_number s).
Qed.

End Coercion.

Section Engagement.

Variable parse_number : string -> option Q.

Lemma numeric_row_get (r : gmap string cell) (c : string) :
  numeric_row r -> c ∈ numeric_columns -> get_cell r c = Num (num_at r c).
Proof.
  intros Hr Hc. destruct (Hr c Hc) as [q Hq].
  unfold num_at, get_cell. by rewrite Hq.
Qed.

Lemma add_engagement_rate_eq (df : DataFrame) :
  (forall c, c ∈ numeric_columns -> has_column df c = true) ->
  (forall r, r ∈ rows df -> numeric_row r.2) ->
  add_engagement_rate df
  = Ok {| columns := add_column (columns df) "engagement_rate";
          rows := (fun r => (r.1, <["engagement_rate" := Num (rate_of r.2)]> r.2))
                    <$> rows df |}.
Proof.
  intros Hcols Hrows. unfold add_engagement_rate.
  assert (Hin : forall c, c ∈ ["views"; "likes"; "comments"] -> c ∈ numeric_columns).
  { intros c. unfold numeric_columns. rewrite !elem_of_cons, !elem_of_nil. tauto. }
  rewrite !column_fmap by (apply Hcols, Hin; rewrite !elem_of_cons; tauto). csimpl.
  rewrite (rzip_ok cell_add _ _
             (fun r => Num (num_at r.2 "likes" + num_at r.2 "comments")%Q)).
  2:{ intros r Hr. rewrite !numeric_row_get; auto.
      all: apply Hin; rewrite !elem_of_cons; tauto. }
  csimpl. rewrite <- list_fmap_compose.
  rewrite (rzip_ok cell_div _ _
             (fun r => if Qzero (num_at r.2 "views") then Null
                       else Num ((num_at r.2 "likes" + num_at r.2 "comments")
                                 / num_at r.2 "views")%Q)).
  2:{ intros r Hr. simpl. rewrite numeric_row_get; auto.
      2: apply Hin; rewrite !elem_of_cons; tauto.
      simpl. destruct (Qzero (num_at r.2 "views")) eqn:Hz; simpl; [done|].
      by rewrite Hz. }
  csimpl. rewrite <- list_fmap_compose, set_column_fmap. do 2 f_equal.
  apply list_fmap_ext. intros i r _. simpl. unfold rate_of.
  by destruct (Qzero (num_at r.2 "views")).
Qed.

Lemma coerce_row_numeric (df : DataFrame) (r : gmap string cell) :
  numeric_row (coerce_row parse_number df r).
Proof. intros c Hc. eexists. by apply coerce_row_lookup. Qed.

Lemma rate_of_nonneg (r : gmap string cell) :
  (0 <= num_at r "likes")%Q -> (0 <= num_at r "comments")%Q ->
  (0 <= num_at r "views")%Q -> (0 <= rate_of r)%Q.
Proof.
  intros Hl Hc Hv. unfold rate_of.
  destruct (Qzero (num_at r "views")); [apply Qle_refl|].
  unfold Qdiv. apply Qmult_le_0_compat.
  - rewrite <- (Qplus_0_l 0). by apply Qplus_le_compat.
  - by apply Qinv_le_0_compat.
Qed.


End Engagement.


(** C6: for a latest snapshot whose total views and total videos are the
    numbers v and k, the KPI is v / max(k, 1): the division is never by
    zero, and it is v itself when k = 0. *)
Theorem avg_views_guarded (channel_df : DataFrame) (first : nat * gmap string cell)
    (others : list (nat * gmap string cell)) (v k : Q) :
  has_column channel_df "total_views" = true ->
  has_column channel_df "total_videos" = true ->
  rows channel_df = first :: others ->
  get_cell first.2 "total_views" = Num v ->
  get_cell first.2 "total_videos" = Num k ->
  exists a, avg_views channel_df = Some (Num a) /\
    (a == v / Qmax k 1)%Q /\
    ((k == 0)%Q -> (a == v)%Q).
Proof.
  intros Hv Hk Hrows Hcv Hck. unfold avg_views.
  rewrite !column_fmap by done. rewrite Hrows. csimpl.
  rewrite Hcv, Hck. simpl.
  destruct (Qle_bool 1 k) eqn:E; simpl.
  - apply Qle_bool_iff in E.
    assert (Hnz : ~ (k == 0)%Q).
    { intros Hz. rewrite Hz in E. by apply Qle_not_lt in E. }
    unfold Qzero. destruct (Qeq_bool k 0) eqn:Ez.
    { by apply Qeq_bool_iff in Ez. }
    eexists. split; [reflexivity|]. split; [|by intros ?].
    by rewrite (Q.max_l k 1).
  - assert (Hlt : (k < 1)%Q).
    { apply Qnot_le_lt. intros H. apply Qle_bool_iff in H. congruence. }
    eexists. split; [reflexivity|]. split.
    + rewrite (Q.max_r k 1); [reflexivity|by apply Qlt_le_weak].
    + intros _. unfold Qdiv. change (/ 1)%Q with 1%Q. apply Qmult_1_r.
Qed.

Lemma avg_views_guarded_witness :
  exists a, avg_views Samples.new_channel = Some (Num a) /\
    (a == 500 / Qmax 0 1)%Q /\ ((0 == 0)%Q -> (a == 500)%Q).
Proof.
  apply (avg_views_guarded Samples.new_channel (Samples.snapshot 0 7 500 0 0) []);
    reflexivity.
Defined.

(** ** The date filter *)

Lemma select_rows_filter {A} (h : A -> cell) (g1 g2 : cell -> bool) (rs : list A) :
  select_rows rs (zip_with andb (g1 <$> (h <$> rs)) (g2 <$> (h <$> rs)))
  = filter (fun r => g1 (h r) && g2 (h r)) rs.
Proof.
  induction rs as [|r rs IH]; csimpl; [done|].
  rewrite filter_cons, IH.
  destruct (g1 (h r) && g2 (h r)); by case_decide.
Qed.

Lemma datetime_column_cell (df : DataFrame) (col : string) (c : cell) :
  datetime_column df col = true ->
  c ∈ (fun r => get_cell r.2 col) <$> rows df -> is_datetime c = true.
Proof.
  unfold datetime_column. rewrite forallb_forall.
  intros H (r & -> & Hr)%list_elem_of_fmap. apply H. by apply list_elem_of_In.
Qed.

Lemma filter_by_date_eq (df : DataFrame) (col : string) (s e : Z) :
  has_column df col = true -> datetime_column df col = true ->
  filter_by_date df (Some s) (Some e) col
  = Ok {| columns := columns df;
          rows := filter (fun r => between s e (get_cell r.2 col)) (rows df) |}.
Proof.
  intros Hc Hd. unfold filter_by_date. rewrite Hc, column_fmap by done. csimpl.
  rewrite (rmap_ok (fun c => cell_ge_ts c (ts_of_date s))
             (fun c => match c with Ts x => (ts_of_date s <=? x)%Z | _ => false end)).
  2:{ intros c Hin. apply (datetime_column_cell _ _ _ Hd) in Hin. by destruct c. }
  csimpl.
  rewrite (rmap_ok (fun c => cell_le_ts c (ts_of_date e + ns_per_day - ns_per_sec)%Z)
                   (fun c => match c with
                               | Ts x => (x <=? ts_of_date e + ns_per_day - ns_per_sec)%Z
                               | _ => false end)).
  2:{ intros c Hin. apply (datetime_column_cell _ _ _ Hd) in Hin. by destruct c. }
  csimpl. rewrite select_rows_filter. do 2 f_equal.
  apply list_filter_iff. intros r. unfold between, clock.
  destruct (get_cell r.2 col) as [q|t| |t]; simpl; try done.
  replace (ts_of_date s + ((0 * 60 + 0) * 60 + 0) * ns_per_sec)%Z with (ts_of_date s)
    by (unfold ns_per_sec; lia).
  replace (ts_of_date e + ((23 * 60 + 59) * 60 + 59) * ns_per_sec)%Z
    with (ts_of_date e + ns_per_day - ns_per_sec)%Z
    by (unfold ns_per_day, ns_per_sec; lia).
  done.
Qed.

Lemma between_spec (s e : Z) (c : cell) :
  between s e c = true <->
  exists t, c = Ts t /\ (clock s 0 0 0 <= t <= clock e 23 59 59)%Z.
Proof.
  unfold between. destruct c as [q|x| |t].
  1-3: split; [done|by intros (t & ? & _)].
  rewrite andb_true_iff, !Z.leb_le. split.
  - intros H. by exists t.
  - intros (t' & [= <-] & H). done.
Qed.

Lemma clock_same_day (d t : Z) :
  (clock d 0 0 0 <= t <= clock d 23 59 59)%Z -> date_of_ts t = d.
Proof.
  unfold clock, date_of_ts, ts_of_date, ns_per_day, ns_per_sec. intros H.
  symmetry. apply (Z.div_unique_pos t _ d (t - d * (86400 * 1000000000))); lia.
Qed.



(** C9: with both dates present, a row whose date is null is not in the
    filtered table, whatever the other rows hold. *)
Theorem null_dates_excluded (df : DataFrame) (col : string) (s e : Z) :
  has_column df col = true -> datetime_column df col = true ->
  exists out, filter_by_date df (Some s) (Some e) col = Ok out /\
    (forall r, r ∈ rows out -> r ∈ rows df /\ isnull (get_cell r.2 col) = false) /\
    (forall r, r ∈ rows df -> get_cell r.2 col = Null -> r ∉ rows out).
Proof.
  intros Hc Hd. eexists. split; [by apply filter_by_date_eq|]. simpl. split.
  - intros r [Hb Hr]%list_elem_of_filter. split; [done|].
    apply Is_true_true, between_spec in Hb as (t & -> & _). done.
  - intros r _ Hnull [Hb _]%list_elem_of_filter.
    apply Is_true_true, between_spec in Hb as (t & Ht & _). congruence.
Qed.

Lemma null_dates_excluded_witness :
  exists out, filter_by_date Samples.dated_videos (Some 0%Z) (Some 4%Z) "published_at" = Ok out /\
    (forall r, r ∈ rows out ->
       r ∈ rows Samples.dated_videos /\ isnull (get_cell r.2 "published_at") = false) /\
    (forall r, r ∈ rows Samples.dated_videos ->
       get_cell r.2 "published_at" = Null -> r ∉ rows out).
Proof.
  apply (null_dates_excluded Samples.dated_videos "published_at" 0 4); reflexivity.
Defined.

(** ** Rankings *)

Lemma key_ge_false (a b : option Q) : key_ge a b = false -> key_ge b a = true.
Proof.
  destruct a as [x|], b as [y|]; simpl; try done.
  intros H. apply Qle_bool_iff. apply Qlt_le_weak, Qnot_le_lt.
  intros Hle. apply Qle_bool_iff in Hle. congruence.
Qed.

Lemma key_ge_trans (a b c : option Q) :
  key_ge a b = true -> key_ge b c = true -> key_ge a c = true.
Proof.
  destruct a as [x|], b as [y|], c as [z|]; simpl; try done.
  rewrite !Qle_bool_iff. intros H1 H2. by apply Qle_trans with y.
Qed.

Lemma key_ge_false_tied (a b v : option Q) :
  key_ge a b = false -> key_eqb a v = true -> key_eqb b v = false.
Proof.
  destruct a as [x|], b as [y|], v as [z|]; simpl; try done.
  intros Hge Hx. destruct (Qeq_bool y z) eqn:Hy; [|done].
  apply Qeq_bool_iff in Hx, Hy.
  assert (Hle : Qle_bool y x = true); [|congruence].
  apply Qle_bool_iff. rewrite Hx, Hy. apply Qle_refl.
Qed.

Section Sorting.

Context {A : Type} (key : A -> option Q).

Let R (a b : A) : Prop := key_ge (key a) (key b) = true.

#[local] Instance R_trans : Transitive R.
Proof. intros a b c. apply key_ge_trans. Qed.

Lemma insert_desc_perm (x : A) (l : list A) : insert_desc key x l ≡ₚ x :: l.
Proof.
  induction l as [|y l IH]; simpl; [done|].
  destruct (key_ge (key x) (key y)); [done|].
  rewrite IH. apply Permutation_swap.
Qed.

Lemma sort_desc_perm (l : list A) : sort_desc key l ≡ₚ l.
Proof.
  induction l as [|x l IH]; simpl; [done|].
  by rewrite insert_desc_perm, IH.
Qed.

Lemma insert_desc_sorted (x : A) (l : list A) :
  StronglySorted R l -> StronglySorted R (insert_desc key x l).
Proof.
  induction l as [|y l IH]; simpl; intros Hl.
  - repeat constructor.
  - apply StronglySorted_cons in Hl as [Hy Hl].
    destruct (key_ge (key x) (key y)) eqn:E.
    + apply StronglySorted_cons. split; [|by apply StronglySorted_cons].
      constructor; [done|]. eapply Forall_impl; [exact Hy|].
      intros z Hz. by transitivity y.
    + apply StronglySorted_cons. split; [|by apply IH].
      rewrite insert_desc_perm. constructor; [|done].
      by apply key_ge_false.
Qed.

Lemma sort_desc_sorted (l : list A) : StronglySorted R (sort_desc key l).
Proof.
  induction l as [|x l IH]; simpl; [constructor|]. by apply insert_desc_sorted.
Qed.

Lemma insert_desc_tied (v : option Q) (x : A) (l : list A) :
  filter (fun a => key_eqb (key a) v) (insert_desc key x l)
  = filter (fun a => key_eqb (key a) v) (x :: l).
Proof.
  induction l as [|y l IH]; simpl; [done|].
  destruct (key_ge (key x) (key y)) eqn:E; [done|].
  rewrite (filter_cons _ y), IH, !(filter_cons _ x), (filter_cons _ y).
  destruct (decide (key_eqb (key x) v)) as [Hx|Hx]; [|done].
  apply Is_true_true in Hx.
  rewrite (key_ge_false_tied _ _ _ E Hx). by case_decide.
Qed.

Lemma sort_desc_tied (v : option Q) (l : list A) :
  filter (fun a => key_eqb (key a) v) (sort_desc key l)
  = filter (fun a => key_eqb (key a) v) l.
Proof.
  induction l as [|x l IH]; simpl; [done|].
  by rewrite insert_desc_tied, !filter_cons, IH.
Qed.

Lemma take_filter_prefix (P : A -> Prop) `{!forall a, Decision (P a)}
    (n : nat) (l : list A) :
  filter P (take n l) `prefix_of` filter P l.
Proof.
  rewrite <- (take_drop n l) at 2. rewrite filter_app. by apply prefix_app_r.
Qed.

Lemma take_drop_sorted (n : nat) (l : list A) (a b : A) :
  StronglySorted R l -> a ∈ take n l -> b ∈ drop n l -> R a b.
Proof.
  rewrite <- (take_drop n l) at 1. apply StronglySorted_app_1_elem_of.
Qed.

End Sorting.

Lemma sortable_keys (df : DataFrame) (col : string) :
  sortable_column df col = true ->
  has_column df col = true /\
  rmap sort_key ((fun r => get_cell r.2 col) <$> rows df) = Ok (row_key col <$> rows df).
Proof.
  unfold sortable_column. rewrite andb_true_iff, forallb_forall. intros [Hc Hs].
  split; [done|].
  rewrite (rmap_ok sort_key (fun c => match c with Num q => Some q | _ => None end)).
  - by rewrite <- list_fmap_compose.
  - intros c (r & -> & Hr)%list_elem_of_fmap.
    apply list_elem_of_In, Hs in Hr. by destruct (get_cell r.2 col).
Qed.

Lemma nlargest_eq (n : Z) (df : DataFrame) (col : string) :
  sortable_column df col = true ->
  nlargest n col df
  = Ok {| columns := columns df;
          rows := take (Z.to_nat n) (sort_desc (row_key col) (rows df)) |}.
Proof.
  intros [Hc Hk]%sortable_keys. unfold nlargest.
  rewrite column_fmap by done. csimpl. by rewrite Hk.
Qed.

Lemma sorted_take_is_top_n (col : string) (n : nat) (df : DataFrame)
    (sorted : list (nat * gmap string cell)) :
  sorted ≡ₚ rows df -> descending col sorted ->
  is_top_n col n df {| columns := columns df; rows := take n sorted |}.
Proof.
  intros Hp Hs. split; [done|]. simpl. split; [|split].
  - by rewrite length_take, Hp.
  - unfold descending in *. rewrite <- (take_drop n sorted) in Hs.
    by apply StronglySorted_app_1_l in Hs.
  - exists (drop n sorted). split; [by rewrite take_drop|].
    intros a b. by apply (take_drop_sorted (row_key col)).
Qed.

(** [nlargest]: a top-n in which rows of equal value are the first such
    rows of the table, in the order of the table. *)
Lemma nlargest_stable (n : nat) (df : DataFrame) (col : string) :
  sortable_column df col = true ->
  exists top, nlargest (Z.of_nat n) col df = Ok top /\
    is_top_n col n df top /\
    forall v, tied col v (rows top) `prefix_of` tied col v (rows df).
Proof.
  intros Hs. eexists. split; [by apply nlargest_eq|]. rewrite Nat2Z.id. split.
  - apply sorted_take_is_top_n; [apply sort_desc_perm|apply sort_desc_sorted].
  - intros v. unfold tied. simpl.
    rewrite <- (sort_desc_tied (row_key col) v (rows df)).
    apply take_filter_prefix.
Qed.

Lemma omap_fmap {A B C} (f : B -> option C) (g : A -> B) (l : list A) :
  omap f (g <$> l) = omap (f ∘ g) l.
Proof. induction l as [|a l IH]; csimpl; [done|]. by rewrite IH. Qed.

Lemma omap_lookup_seq {A} (l : list A) :
  omap (fun i => l !! i) (seq 0 (length l)) = l.
Proof.
  induction l as [|a l IH]; [done|].
  cbn [length seq]. rewrite <- fmap_S_seq. csimpl.
  rewrite omap_fmap. by rewrite <- IH at 2.
Qed.

Section Argsort.

Variable argsort : list (option Q) -> list nat.
Hypothesis argsort_ok : argsort_contract argsort.

Lemma key_at_row_key (col : string) (rs : list (nat * gmap string cell))
    (i : nat) (r : nat * gmap string cell) :
  rs !! i = Some r -> key_at (row_key col <$> rs) i = row_key col r.
Proof. intros H. unfold key_at. by rewrite list_lookup_fmap, H. Qed.

Lemma argsort_rows_perm (col : string) (rs : list (nat * gmap string cell)) :
  omap (fun i => rs !! i) (argsort (row_key col <$> rs)) ≡ₚ rs.
Proof.
  destruct (argsort_ok (row_key col <$> rs)) as [Hp _].
  rewrite Hp, length_fmap. by rewrite omap_lookup_seq.
Qed.

Lemma argsort_rows_descending (col : string) (rs : list (nat * gmap string cell)) :
  descending col (omap (fun i => rs !! i) (argsort (row_key col <$> rs))).
Proof.
  destruct (argsort_ok (row_key col <$> rs)) as [_ Hs].
  apply Sorted_StronglySorted in Hs.
  2:{ intros i j k. apply key_ge_trans. }
  unfold descending.
  induction Hs as [|i idx Hidx IH Hall]; csimpl; [constructor|].
  destruct (rs !! i) as [r|] eqn:Hi; [|done].
  constructor; [done|]. apply Forall_forall.
  intros r' (j & Hj & Hr')%list_elem_of_omap.
  rewrite Forall_forall in Hall. specialize (Hall j Hj).
  by rewrite (key_at_row_key col rs i r), (key_at_row_key col rs j r') in Hall.
Qed.

Lemma sort_values_desc_eq (df : DataFrame) (col : string) :
  sortable_column df col = true ->
  sort_values_desc argsort col df
  = Ok {| columns := columns df;
          rows := omap (fun i => rows df !! i) (argsort (row_key col <$> rows df)) |}.
Proof.
  intros [Hc Hk]%sortable_keys. unfold sort_values_desc.
  rewrite column_fmap by done. csimpl. by rewrite Hk.
Qed.


End Argsort.

(** The two sample argsorts keep numpy's promise. *)

Lemma zip_positions (ks : list (option Q)) :
  Forall (fun x => key_at ks x.2 = x.1) (zip ks (seq 0 (length ks))).
Proof.
  apply Forall_forall. intros [k i] [j Hj]%list_elem_of_lookup_1.
  apply lookup_zip_with_Some in Hj as (k' & i' & [= -> ->] & Hk & Hi).
  apply lookup_seq in Hi as [-> _]. simpl. unfold key_at. by rewrite Hk.
Qed.

Lemma sorted_positions (ks : list (option Q)) (l : list (option Q * nat)) :
  Forall (fun x => key_at ks x.2 = x.1) l ->
  StronglySorted (fun a b => key_ge a.1 b.1 = true) l ->
  Sorted (fun i j => key_ge (key_at ks i) (key_at ks j) = true) (snd <$> l).
Proof.
  intros Hall Hs. apply StronglySorted_Sorted.
  induction Hs as [|x l Hl IH Hx]; csimpl; [constructor|].
  apply Forall_cons in Hall as [Hkx Hall].
  constructor; [by apply IH|].
  apply Forall_fmap, Forall_forall. intros y Hy. simpl.
  rewrite Forall_forall in Hall, Hx.
  rewrite Hkx, (Hall y Hy). by apply Hx.
Qed.

Lemma keyed_positions_contract (ks : list (option Q)) (l : list (option Q * nat)) :
  l ≡ₚ zip ks (seq 0 (length ks)) ->
  snd <$> sort_desc fst l ≡ₚ seq 0 (length ks) /\
  Sorted (fun i j => key_ge (key_at ks i) (key_at ks j) = true)
    (snd <$> sort_desc fst l).
Proof.
  intros Hl. split.
  - rewrite sort_desc_perm, Hl. rewrite snd_zip; [done|].
    by rewrite length_seq.
  - apply sorted_positions; [|apply sort_desc_sorted].
    rewrite sort_desc_perm, Hl. apply zip_positions.
Qed.

Lemma argsort_first_contract : argsort_contract Samples.argsort_first.
Proof. intros ks. by apply keyed_positions_contract. Qed.

Lemma argsort_last_contract : argsort_contract Samples.argsort_last.
Proof. intros ks. apply keyed_positions_contract, reverse_Permutation. Qed.




(** ** The store along a run *)

Lemma keeps_bind base H0 P {A B} (m : M A) (k : A -> M B) (Q : A -> Prop) (R : B -> Prop) :
  keeps base H0 P m Q -> (forall a, Q a -> keeps base H0 P (k a) R) ->
  keeps base H0 P (m ≫= k) R.
Proof.
  intros Hm Hk w Hw. destruct (Hm w Hw) as [Hw' Hq].
  unfold mbind, M_bind. destruct (m w) as [[a|e] w'] eqn:E; simpl in *.
  - by apply (Hk a (Hq a eq_refl)).
  - by split.
Qed.

Lemma keeps_weaken base H0 P {A} (m : M A) (Q Q' : A -> Prop) :
  keeps base H0 P m Q -> (forall a, Q a -> Q' a) -> keeps base H0 P m Q'.
Proof. intros Hm HQ w Hw. destruct (Hm w Hw) as [? Hq]. split; [done|]. eauto. Qed.

Lemma keeps_ret base H0 P {A} (a : A) (Q : A -> Prop) :
  Q a -> keeps base H0 P (mret a) Q.
Proof. intros Ha w Hw. split; [done|]. by intros a' [= <-]. Qed.

Lemma keeps_lift base H0 P {A} (r : result A) :
  keeps base H0 P (lift r) (fun a => r = Ok a).
Proof. intros w Hw. by split. Qed.

Lemma keeps_alloc base H0 P (df : DataFrame) :
  keeps base H0 P (alloc df) (fun l => base <= l).
Proof.
  intros w (Hn & Hh & Hr). split.
  - split; [simpl; lia|]. split; [|done]. intros l Hl. simpl.
    rewrite lookup_insert_ne by lia. by apply Hh.
  - simpl. intros a [= <-]. done.
Qed.

Lemma keeps_read base H0 P (l : nat) :
  keeps base H0 P (read l) (fun _ => True).
Proof. intros w Hw. by split. Qed.

Lemma keeps_update base H0 P (l : nat) (f : DataFrame -> result DataFrame) :
  base <= l -> keeps base H0 P (update l f) (fun _ => True).
Proof.
  intros Hl w (Hn & Hh & Hr). unfold update, mbind, M_bind, read, lift, write.
  destruct (heap w !! l) as [df|]; simpl; [|by repeat split].
  destruct (f df) as [df'|e]; simpl; [|by repeat split].
  split; [|done]. split; [done|]. split; [|done]. intros l' Hl'. simpl.
  rewrite lookup_insert_ne by lia. by apply Hh.
Qed.

Lemma keeps_ranked base H0 (P : string * Z -> Prop) (field : string) (n : Z) :
  P (field, n) -> keeps base H0 P (ranked field n) (fun _ => True).
Proof.
  intros Hp w (Hn & Hh & Hr). split; [|done]. split; [done|]. split; [done|].
  simpl. apply Forall_app. split; [done|]. by constructor.
Qed.

(** One statement of the script: its rule, then the next statement. *)
Ltac keeps_step :=
  eapply keeps_bind;
  [ first [ apply keeps_alloc
          | apply keeps_read
          | apply keeps_lift
          | apply keeps_update; (assumption || lia)
          | apply keeps_ranked; assumption ]
  | intros ? ? ].

Section Script.

Variable parse_number : string -> option Q.
Variable parse_datetime : string -> option Z.
Variable argsort : list (option Q) -> list nat.

Lemma render_keeps base H0 (P : string * Z -> Prop)
    (channel_df channel_history_df videos_df : nat) (ui : controls) :
  P ("views", slider 3 50 10 (top_n_choice ui)) ->
  P ("engagement_rate", slider 3 50 10 (top_n_choice ui)) ->
  P ("likes", 10%Z) -> P ("dislikes", 10%Z) ->
  keeps base H0 P
    (render parse_number parse_datetime argsort
       channel_df channel_history_df videos_df ui)
    (fun _ => True).
Proof.
  intros Pv Pe Pl Pd. unfold render.
  do 2 keeps_step.
  eapply keeps_bind.
  { instantiate (1 := fun _ => True).
    match goal with |- keeps _ _ _ (if ?b then _ else _) _ => destruct b end;
      [eapply keeps_weaken; [apply keeps_lift|done]|].
    by apply keeps_ret. }
  intros _ _. keeps_step.
  eapply keeps_bind.
  { instantiate (1 := fun l => base <= l).
    match goal with |- keeps _ _ _ (let (_, _) := ?r in _) _ =>
      destruct r as [[s|] [e|]] end; try by apply keeps_ret.
    match goal with |- keeps _ _ _ (if ?b then _ else _) _ => destruct b end;
      [|by apply keeps_ret].
    keeps_step. apply keeps_alloc. }
  intros filtered_videos Hfv. simpl in Hfv.
  do 14 keeps_step.
  eapply keeps_bind.
  { instantiate (1 := fun _ => True).
    match goal with |- keeps _ _ _ (if ?b then _ else _) _ => destruct b end;
      [|by apply keeps_ret].
    keeps_step. by apply keeps_update. }
  intros _ _. do 5 keeps_step.
  eapply keeps_bind.
  { instantiate (1 := fun _ => True).
    match goal with |- keeps _ _ _ (if ?b then _ else _) _ => destruct b end;
      [|by apply keeps_ret].
    do 2 keeps_step. by apply keeps_ret. }
  intros top_dislikes _. by apply keeps_ret.
Qed.

Lemma script_keeps base H0 (P : string * Z -> Prop) (db : tables) (ui : controls) :
  P ("views", slider 3 50 10 (top_n_choice ui)) ->
  P ("engagement_rate", slider 3 50 10 (top_n_choice ui)) ->
  P ("likes", 10%Z) -> P ("dislikes", 10%Z) ->
  base = 0 ->
  keeps base H0 P (script parse_number parse_datetime argsort db ui) (fun _ => True).
Proof.
  intros Pv Pe Pl Pd ->. unfold script. do 6 keeps_step. by apply render_keeps.
Qed.


Lemma ensure_datetime_id (df : DataFrame) (c : string) :
  already_datetime df c = true -> ensure_datetime parse_datetime df c = Ok df.
Proof.
  unfold already_datetime, ensure_datetime.
  destruct (has_column df c) eqn:Hc; simpl; [|done].
  rewrite forallb_forall. intros Hall.
  rewrite column_fmap by done. csimpl.
  rewrite (rmap_ok (to_datetime parse_datetime) id).
  2:{ intros x (r & -> & Hr)%list_elem_of_fmap.
      apply list_elem_of_In, Hall in Hr. unfold get_cell.
      by destruct (r.2 !! c) as [[]|]. }
  csimpl. rewrite list_fmap_id, set_column_fmap, Hc.
  destruct df as [cols rs]. simpl in *. do 2 f_equal.
  rewrite <- (list_fmap_id rs) at 2. apply list_fmap_ext.
  intros i [l r] Hr. simpl. f_equal.
  apply list_elem_of_lookup_2, list_elem_of_In, Hall in Hr. simpl in Hr.
  unfold get_cell. destruct (r !! c) as [x|] eqn:Hx; [|done].
  by apply insert_id.
Qed.

Lemma script_store (db : tables) (ui : controls) :
  exists h v,
    converted parse_datetime ["fetched_at"] (channel_history db) h /\
    converted parse_datetime ["fetched_at"; "published_at"] (videos db) v /\
    let w := (script parse_number parse_datetime argsort db ui boot).2 in
    heap w !! 0 = Some (channel_latest db) /\
    heap w !! 1 = Some h /\ heap w !! 2 = Some v.
Proof.
  unfold script, boot.
  unfold update, mbind, M_bind, alloc, read, write, lift.
  cbn [heap next rankings fst snd].
  rewrite lookup_insert_ne, lookup_insert_eq by done.
  destruct (ensure_datetime _ (channel_history db) _) as [h|e] eqn:Eh;
    cbn [heap next rankings fst snd].
  2:{ exists (channel_history db), (videos db). simpl.
      split; [by left|]. split; [by left|]. by simplify_map_eq. }
  rewrite lookup_insert_ne, lookup_insert_eq by done.
  destruct (ensure_datetime _ (videos db) _) as [v1|e] eqn:Ev1;
    cbn [heap next rankings fst snd].
  2:{ exists h, (videos db). simpl.
      split; [right; eauto|]. split; [by left|]. by simplify_map_eq. }
  rewrite lookup_insert_eq.
  destruct (ensure_datetime _ v1 _) as [v2|e] eqn:Ev2;
    cbn [heap next rankings fst snd].
  2:{ exists h, v1. simpl.
      split; [right; eauto|]. split; [right; eauto|]. by simplify_map_eq. }
  exists h, v2. split; [simpl; right; eauto|].
  split; [simpl; right; exists v1; split; [done|]; right; eauto|].
  match goal with |- context [render _ _ _ _ _ _ _ ?w] =>
    pose proof (render_keeps 3 (heap w) (fun _ => True) 0 1 2 ui I I I I w) as Hk
  end.
  destruct Hk as [(_ & Hh & _) _].
  { split; [simpl; lia|]. split; [done|]. simpl. constructor. }
  cbv zeta. rewrite !Hh by lia. simpl. by simplify_map_eq.
Qed.

Lemma converted_already (cols : list string) (d v : DataFrame) :
  Forall (fun c => already_datetime d c = true) cols ->
  converted parse_datetime cols d v -> v = d.
Proof.
  revert v. induction cols as [|c cols IH]; intros v Hall [->|Hc]; try done.
  apply Forall_cons in Hall as [Hc1 Hall].
  destruct Hc as (d' & Hd' & Hv).
  rewrite (ensure_datetime_id d c Hc1) in Hd'. injection Hd' as <-.
  by apply IH.
Qed.

(** C8 (amended): whatever the run does, the latest channel snapshot is
    never changed; the channel history and the video table are only
    changed by the to_datetime assignments of lines 34-39 to their date
    columns, everything later being computed on copies; and a table whose
    date columns already hold timestamps or NaT is left exactly as loaded. *)
Theorem source_tables_after_run (db : tables) (ui : controls) :
  let w := (script parse_number parse_datetime argsort db ui boot).2 in
  heap w !! 0 = Some (channel_latest db) /\
  (exists h, heap w !! 1 = Some h /\
     converted parse_datetime ["fetched_at"] (channel_history db) h) /\
  (exists v, heap w !! 2 = Some v /\
     converted parse_datetime ["fetched_at"; "published_at"] (videos db) v) /\
  (already_datetime (channel_history db) "fetched_at" = true ->
   heap w !! 1 = Some (channel_history db)) /\
  (already_datetime (videos db) "fetched_at" = true ->
   already_datetime (videos db) "published_at" = true ->
   heap w !! 2 = Some (videos db)).
Proof.
  destruct (script_store db ui) as (h & v & Hh & Hv & H0 & H1 & H2).
  cbv zeta in *. split; [done|]. split; [eauto|]. split; [eauto|]. split.
  - intros Ha. rewrite H1. f_equal.
    apply (converted_already ["fetched_at"]); [|done]. by repeat constructor.
  - intros Ha Hb. rewrite H2. f_equal.
    apply (converted_already ["fetched_at"; "published_at"]); [|done].
    by repeat constructor.
Qed.

End Script.

(** C8, as stated, fails: a fetch time loaded as the text "1970-01-04" is
    replaced in the loaded video table itself by a timestamp. *)
Lemma text_dates_overwritten :
  let w := (script Samples.no_number Samples.fourth_of_january Samples.argsort_first
              Samples.text_dated_db Samples.untouched boot).2 in
  exists r r',
    rows (videos Samples.text_dated_db) !! 0 = Some r /\
    r.2 !! "fetched_at" = Some (Str "1970-01-04") /\
    (rows <$> heap w !! 2) = Some [r'] /\
    r'.2 !! "fetched_at" = Some (Ts (ts_of_date 3)) /\
    heap w !! 2 <> Some (videos Samples.text_dated_db).
Proof.
  intros w.
  eassert (Hrun : heap w !! 2 = Some _) by (vm_compute; reflexivity).
  rewrite Hrun. eexists _, _.
  split; [reflexivity|]. split; [reflexivity|].
  split; [reflexivity|]. split; [reflexivity|].
  intros [=].
Qed.

(** ** Rollups *)

Lemma loc_elem_of (df : DataFrame) (label : nat) (r : gmap string cell) :
  loc df label = Ok r -> (label, r) ∈ rows df.
Proof.
  unfold loc. destruct (find _ _) as [[l r']|] eqn:E; [|done].
  intros [= <-]. apply find_some in E as [Hin Hl].
  apply Nat.eqb_eq in Hl. simpl in Hl. subst. by apply list_elem_of_In.
Qed.

Lemma row_of_max_elem_of (df : DataFrame) (col : string) (r : gmap string cell) :
  row_of_max df col = Ok r -> exists label, (label, r) ∈ rows df.
Proof.
  unfold row_of_max. destruct (idxmax df col) as [l|e]; csimpl; [|done].
  intros H. exists l. by apply loc_elem_of.
Qed.

(** C2 (amended): on a filtered table without rows the four sums are 0
    and the mean engagement rate is 0, nothing is raised; the most
    viewed, liked and disliked rows are absent when the table as loaded is
    empty too, and otherwise they are taken from the table as loaded
    (lines 148-151), so that any result is a row of that table. *)
Theorem rollups_of_empty (videos_df fv : DataFrame) :
  rows fv = [] ->
  forallb (has_column fv) numeric_columns = true ->
  engagement_totals fv
  = Ok {| total_likes := 0; total_dislikes := 0; total_comments := 0;
          total_views_filtered := 0; avg_engagement := Num 0 |} /\
  (empty videos_df = true ->
   most_of videos_df fv = Ok {| mv := None; ml := None; md := None |}) /\
  (empty videos_df = false ->
   forall h, most_of videos_df fv = Ok h ->
     exists v l d, h = {| mv := Some v; ml := Some l; md := Some d |} /\
       row_of_max videos_df "views" = Ok v /\
       row_of_max videos_df "likes" = Ok l /\
       row_of_max videos_df "dislikes" = Ok d /\
       (exists label, (label, v) ∈ rows videos_df) /\
       (exists label, (label, l) ∈ rows videos_df) /\
       (exists label, (label, d) ∈ rows videos_df)).
Proof.
  intros Hrows Hcols.
  assert (He : empty fv = true) by (unfold empty; by rewrite Hrows).
  rewrite forallb_forall in Hcols.
  assert (Hc : forall c, c ∈ numeric_columns -> column fv c = Ok []).
  { intros c Hin. rewrite column_fmap, Hrows; [done|].
    by apply Hcols, list_elem_of_In. }
  split; [|split].
  - unfold engagement_totals.
    rewrite (Hc "likes"), (Hc "dislikes"), (Hc "comments"), (Hc "views")
      by (unfold numeric_columns; rewrite !elem_of_cons; auto 10).
    csimpl. by rewrite He.
  - intros Hv. unfold most_of. by rewrite He, Hv.
  - intros Hv h. unfold most_of. rewrite He, Hv. simpl.
    destruct (row_of_max videos_df "views") as [v|] eqn:Ev; csimpl; [|done].
    destruct (row_of_max videos_df "likes") as [l|] eqn:El; csimpl; [|done].
    destruct (row_of_max videos_df "dislikes") as [d|] eqn:Ed; csimpl; [|done].
    intros [= <-]. exists v, l, d.
    eauto 10 using row_of_max_elem_of.
Qed.

Lemma rollups_of_empty_witness :
  engagement_totals Samples.nothing_left
  = Ok {| total_likes := 0; total_dislikes := 0; total_comments := 0;
          total_views_filtered := 0; avg_engagement := Num 0 |} /\
  (empty Samples.sparse_videos = true ->
   most_of Samples.sparse_videos Samples.nothing_left
   = Ok {| mv := None; ml := None; md := None |}) /\
  (empty Samples.sparse_videos = false ->
   forall h, most_of Samples.sparse_videos Samples.nothing_left = Ok h ->
     exists v l d, h = {| mv := Some v; ml := Some l; md := Some d |} /\
       row_of_max Samples.sparse_videos "views" = Ok v /\
       row_of_max Samples.sparse_videos "likes" = Ok l /\
       row_of_max Samples.sparse_videos "dislikes" = Ok d /\
       (exists label, (label, v) ∈ rows Samples.sparse_videos) /\
       (exists label, (label, l) ∈ rows Samples.sparse_videos) /\
       (exists label, (label, d) ∈ rows Samples.sparse_videos)).
Proof.
  apply (rollups_of_empty Samples.sparse_videos Samples.nothing_left); reflexivity.
Defined.

(** C2, as stated, fails: with videos on days 1 and 9 and the range set
    to day 5, the filtered table is empty and yet the most viewed video
    is reported, taken from the table as loaded. *)
Lemma empty_filter_falls_back :
  exists rep w a,
    script Samples.no_number Samples.no_date Samples.argsort_first
      Samples.sparse_db Samples.day_five boot = (Ok rep, w) /\
    rows (r_filtered_videos rep) = [] /\
    mv (r_most rep) = Some a /\
    a !! "title" = Some (Str "A") /\
    mv (r_most rep) <> None.
Proof.
  assert (Hrun : is_ok Samples.sparse_run.1 = true) by (vm_compute; reflexivity).
  apply run_returned in Hrun.
  assert (Hmv : is_Some (mv (r_most (report_of Samples.sparse_run)))).
  { apply (bool_decide_unpack _). vm_compute. exact I. }
  destruct Hmv as [a Ha].
  exists (report_of Samples.sparse_run), Samples.sparse_run.2, a.
  split; [exact Hrun|]. split; [vm_compute; reflexivity|]. split; [exact Ha|].
  split; [|by rewrite Ha].
  assert (Ht : (a' ← mv (r_most (report_of Samples.sparse_run)); a' !! "title")
               = Some (Str "A")) by (vm_compute; reflexivity).
  by rewrite Ha in Ht.
Qed.

(** ** The four rankings of a run *)

Lemma bind_Ok_inv {A B} (m : M A) (k : A -> M B) (w w' : world) (b : B) :
  (m ≫= k) w = (Ok b, w') ->
  exists a w1, m w = (Ok a, w1) /\ k a w1 = (Ok b, w').
Proof.
  unfold mbind, M_bind. destruct (m w) as [[a|e] w1]; [|done]. eauto.
Qed.

Lemma alloc_Ok_inv (df : DataFrame) (w w' : world) (l : nat) :
  alloc df w = (Ok l, w') -> rankings w' = rankings w.
Proof. unfold alloc. intros [= _ <-]. done. Qed.

Lemma read_Ok_inv (l : nat) (w w' : world) (df : DataFrame) :
  read l w = (Ok df, w') -> w' = w.
Proof. unfold read. by intros [= _ <-]. Qed.

Lemma lift_Ok_inv {A} (r : result A) (w w' : world) (a : A) :
  lift r w = (Ok a, w') -> r = Ok a /\ w' = w.
Proof. unfold lift. by intros [= -> <-]. Qed.

Lemma ret_Ok_inv {A} (x a : A) (w w' : world) :
  mret (M := M) x w = (Ok a, w') -> a = x /\ w' = w.
Proof. unfold mret, M_ret. by intros [= <- <-]. Qed.

Lemma update_Ok_inv (l : nat) (f : DataFrame -> result DataFrame)
    (w w' : world) (u : unit) :
  update l f w = (Ok u, w') -> rankings w' = rankings w.
Proof.
  unfold update, mbind, M_bind, read, lift, write.
  destruct (heap w !! l) as [df|]; simpl; [|done].
  destruct (f df) as [df'|]; simpl; [|done]. by intros [= _ <-].
Qed.

Lemma ranked_Ok_inv (field : string) (n : Z) (w w' : world) (u : unit) :
  ranked field n w = (Ok u, w') -> rankings w' = rankings w ++ [(field, n)].
Proof. unfold ranked. by intros [= _ <-]. Qed.

(** Takes the next statement off a run that has returned. *)
Tactic Notation "next_statement" hyp(H) ident(a) ident(w) ident(Ha) :=
  apply bind_Ok_inv in H as (a & w & Ha & H).

Section Rankings.

Variable parse_number : string -> option Q.
Variable parse_datetime : string -> option Z.
Variable argsort : list (option Q) -> list nat.

(** C5 (amended): a run that returns has made a ranking by views and one
    by engagement rate with the count of the slider, a ranking by likes
    with the fixed count 10 and, only when the dislikes sum to more than
    0, a ranking by dislikes with the fixed count 10, all four of the same
    filtered table. *)
Theorem rankings_of_run (db : tables) (ui : controls) (rep : report) (w : world) :
  script parse_number parse_datetime argsort db ui boot = (Ok rep, w) ->
  let fv := r_filtered_videos rep in
  let n := slider 3 50 10 (top_n_choice ui) in
  r_top_n rep = n /\
  nlargest n "views" fv = Ok (r_df_top_n rep) /\
  (exists sorted, sort_values_desc argsort "engagement_rate" fv = Ok sorted /\
     r_top_eng rep = head n sorted) /\
  nlargest 10 "likes" fv = Ok (r_top_likes rep) /\
  match r_top_dislikes rep with
  | Some top =>
      dislikes_positive fv = Ok true /\ nlargest 10 "dislikes" fv = Ok top /\
      rankings w = [("views", n); ("engagement_rate", n); ("likes", 10%Z);
                    ("dislikes", 10%Z)]
  | None =>
      dislikes_positive fv = Ok false /\
      rankings w = [("views", n); ("engagement_rate", n); ("likes", 10%Z)]
  end.
Proof.
  intros H. unfold script in H.
  next_statement H c w1 H1. apply alloc_Ok_inv in H1.
  next_statement H h w2 H2. apply alloc_Ok_inv in H2.
  next_statement H v w3 H3. apply alloc_Ok_inv in H3.
  next_statement H u4 w4 H4. apply update_Ok_inv in H4.
  next_statement H u5 w5 H5. apply update_Ok_inv in H5.
  next_statement H u6 w6 H6. apply update_Ok_inv in H6.
  assert (Hlog : rankings w6 = []) by (by rewrite H6, H5, H4, H3, H2, H1).
  clear H1 H2 H3 H4 H5 H6. unfold render in H.
  next_statement H loaded w7 H7. apply read_Ok_inv in H7 as ->.
  next_statement H range w7 H7. apply lift_Ok_inv in H7 as [_ ->].
  next_statement H u8 w8 H8.
  assert (w8 = w6) as ->.
  { destruct (refresh_clicked ui); [by apply lift_Ok_inv in H8 as [? _]|].
    by apply ret_Ok_inv in H8 as [_ ->]. }
  clear H8.
  next_statement H fv0 w9 H9. apply alloc_Ok_inv in H9.
  next_statement H fv1 w10 H10.
  assert (rankings w10 = []) as Hlog10.
  { rewrite <- Hlog, <- H9. clear -H10.
    destruct range as [[s|] [e|]]; try by apply ret_Ok_inv in H10 as [_ ->].
    destruct (has_column loaded _); [|by apply ret_Ok_inv in H10 as [_ ->]].
    next_statement H10 rest w' Hk. apply lift_Ok_inv in Hk as [_ ->].
    by apply alloc_Ok_inv in H10. }
  clear H9 H10 Hlog.
  next_statement H u11 w11 H11. apply update_Ok_inv in H11.
  next_statement H u12 w12 H12. apply update_Ok_inv in H12.
  next_statement H u13 w13 H13. apply update_Ok_inv in H13.
  next_statement H u14 w14 H14. apply update_Ok_inv in H14.
  next_statement H u15 w15 H15. apply update_Ok_inv in H15.
  assert (Hlog : rankings w15 = []) by (by rewrite H15, H14, H13, H12, H11).
  clear H11 H12 H13 H14 H15 Hlog10.
  next_statement H fv w16 H16. apply read_Ok_inv in H16 as ->.
  next_statement H u17 w17 H17. apply ranked_Ok_inv in H17. rewrite Hlog in H17.
  next_statement H df_top_n w18 H18. apply lift_Ok_inv in H18 as [Hviews ->].
  next_statement H l19 w19 H19. apply alloc_Ok_inv in H19. rewrite H17 in H19.
  next_statement H latest w20 H20. apply read_Ok_inv in H20 as ->.
  next_statement H sums w20 H20. apply lift_Ok_inv in H20 as [_ ->].
  next_statement H loaded' w20 H20. apply read_Ok_inv in H20 as ->.
  next_statement H most w20 H20. apply lift_Ok_inv in H20 as [_ ->].
  next_statement H history w20 H20. apply read_Ok_inv in H20 as ->.
  next_statement H u21 w21 H21.
  assert (rankings w21 = rankings w19) as Hlog21.
  { clear -H21.
    destruct (negb (empty history) && has_column history "fetched_at");
      [|by apply ret_Ok_inv in H21 as [_ ->]].
    next_statement H21 ch w' Hc. apply alloc_Ok_inv in Hc.
    apply update_Ok_inv in H21. by rewrite H21. }
  rewrite H19 in Hlog21. clear H21 H19 H17 Hlog.
  next_statement H u22 w22 H22. apply ranked_Ok_inv in H22. rewrite Hlog21 in H22.
  next_statement H sorted w23 H23. apply lift_Ok_inv in H23 as [Hsorted ->].
  next_statement H u24 w24 H24. apply ranked_Ok_inv in H24. rewrite H22 in H24.
  next_statement H top_likes w25 H25. apply lift_Ok_inv in H25 as [Hlikes ->].
  next_statement H some w25 H25. apply lift_Ok_inv in H25 as [Hsome ->].
  next_statement H top_dislikes w26 H26.
  apply ret_Ok_inv in H as [-> ->]. cbn [r_top_n r_filtered_videos r_df_top_n
    r_top_eng r_top_likes r_top_dislikes].
  split; [done|]. split; [done|]. split; [eauto|]. split; [done|].
  destruct some.
  - next_statement H26 u27 w27 H27. apply ranked_Ok_inv in H27.
    next_statement H26 top w28 H28. apply lift_Ok_inv in H28 as [Hdis ->].
    apply ret_Ok_inv in H26 as [-> ->].
    split; [done|]. split; [done|]. by rewrite H27, H24.
  - apply ret_Ok_inv in H26 as [-> ->]. split; [done|]. by rewrite H24.
Qed.

End Rankings.

Lemma rankings_of_run_witness :
  let rep := report_of Samples.four_run in
  let w := Samples.four_run.2 in
  script Samples.no_number Samples.no_date Samples.argsort_first
    Samples.four_db Samples.top_three boot = (Ok rep, w) /\
  let fv := r_filtered_videos rep in
  let n := slider 3 50 10 (top_n_choice Samples.top_three) in
  r_top_n rep = n /\
  nlargest n "views" fv = Ok (r_df_top_n rep) /\
  (exists sorted,
     sort_values_desc Samples.argsort_first "engagement_rate" fv = Ok sorted /\
     r_top_eng rep = head n sorted) /\
  nlargest 10 "likes" fv = Ok (r_top_likes rep) /\
  match r_top_dislikes rep with
  | Some top =>
      dislikes_positive fv = Ok true /\ nlargest 10 "dislikes" fv = Ok top /\
      rankings w
      = [("views", n); ("engagement_rate", n); ("likes", 10%Z); ("dislikes", 10%Z)]
  | None =>
      dislikes_positive fv = Ok false /\
      rankings w = [("views", n); ("engagement_rate", n); ("likes", 10%Z)]
  end.
Proof.
  intros rep w.
  assert (Hrun : script Samples.no_number Samples.no_date Samples.argsort_first
                   Samples.four_db Samples.top_three boot = (Ok rep, w)).
  { apply (run_returned Samples.four_run). vm_compute. reflexivity. }
  split; [exact Hrun|].
  exact (rankings_of_run Samples.no_number Samples.no_date Samples.argsort_first
           Samples.four_db Samples.top_three rep w Hrun).
Defined.

(** C5, as stated, fails: with the slider at 3 and four videos, the
    ranking by views has 3 rows and the ranking by likes has all 4, its
    count and that of the ranking by dislikes being 10. *)
Lemma likes_ranking_ignores_slider :
  exists rep w,
    script Samples.no_number Samples.no_date Samples.argsort_first
      Samples.four_db Samples.top_three boot = (Ok rep, w) /\
    r_top_n rep = 3%Z /\
    length (rows (r_df_top_n rep)) = 3 /\
    length (rows (r_top_likes rep)) = 4 /\
    rankings w
    = [("views", 3%Z); ("engagement_rate", 3%Z); ("likes", 10%Z); ("dislikes", 10%Z)].
Proof.
  exists (report_of Samples.four_run), Samples.four_run.2.
  split; [apply (run_returned Samples.four_run); vm_compute; reflexivity|].
  repeat split; vm_compute; reflexivity.
Qed.


(** * Further properties of the code *)

(** ** Dates *)

Lemma ts_extreme_datetime (pick : Z -> Z -> Z) (cs : list cell) :
  forallb is_datetime cs = true ->
  exists m, ts_extreme pick cs = Ok m /\
    (m = None <-> timestamps cs = []) /\
    ((forall a b, pick a b = a \/ pick a b = b) ->
     forall x, m = Some x -> x ∈ timestamps cs) /\
    (forall le : Z -> Z -> Prop,
       (forall a, le a a) -> (forall a b c, le a b -> le b c -> le a c) ->
       (forall a b, le (pick a b) a /\ le (pick a b) b) ->
       forall x, m = Some x -> forall t, t ∈ timestamps cs -> le x t).
Proof.
  induction cs as [|c cs IH]; intros Hall.
  - exists None. split; [done|]. split; [done|]. split; [done|].
    intros le _ _ _ x [=].
  - simpl in Hall. apply andb_true_iff in Hall as [Hc Hall].
    destruct (IH Hall) as (m & Hm & Hnone & Hin & Hle).
    destruct c as [q|s| |t]; try done; unfold timestamps in *; csimpl.
    + exists m. by rewrite Hm.
    + rewrite Hm. csimpl. eexists. split; [reflexivity|].
      split; [done|]. split.
      * intros Hpick x [= <-]. destruct m as [u|]; [|by left].
        destruct (Hpick t u) as [-> | ->]; [by left|].
        right. by apply Hin.
      * intros le Hrefl Htrans Hpick x [= <-] t' Ht'.
        apply elem_of_cons in Ht' as [-> | Ht'].
        -- destruct m as [u|]; [apply Hpick|apply Hrefl].
        -- destruct m as [u|].
           ++ eapply Htrans; [apply Hpick|]. by eapply Hle.
           ++ assert (E : omap (fun c => match c with Ts t => Some t | _ => None end) cs = [])
                by (by apply Hnone).
              rewrite E in Ht'. by apply elem_of_nil in Ht'.
Qed.

Lemma forallb_isnull_timestamps (cs : list cell) :
  forallb is_datetime cs = true ->
  (forallb isnull cs = true <-> timestamps cs = []).
Proof.
  induction cs as [|c cs IH]; [done|]. simpl. rewrite andb_true_iff.
  intros [Hc Hall]. specialize (IH Hall). unfold timestamps in *. csimpl.
  destruct c as [q|s| |t]; try done; simpl; tauto.
Qed.

Lemma date_controls_cases (df : DataFrame) (user : option (list Z)) :
  has_column df (date_col_of df) = true ->
  datetime_column df (date_col_of df) = true ->
  (timestamps (date_cells df) = [] -> date_controls df user = Ok (None, None)) /\
  (timestamps (date_cells df) <> [] ->
   exists lo hi,
     lo ∈ timestamps (date_cells df) /\ hi ∈ timestamps (date_cells df) /\
     (forall t, t ∈ timestamps (date_cells df) -> (lo <= t <= hi)%Z) /\
     date_controls df user
     = Ok (Some (chosen_range user (date_of_ts lo) (date_of_ts hi)).1,
           Some (chosen_range user (date_of_ts lo) (date_of_ts hi)).2)).
Proof.
  intros Hc Hd.
  assert (Hall : forallb is_datetime (date_cells df) = true).
  { unfold datetime_column in Hd. unfold date_cells.
    rewrite forallb_forall in *. intros c Hin.
    apply list_elem_of_In, list_elem_of_fmap in Hin as (r & -> & Hr).
    by apply Hd, list_elem_of_In. }
  unfold date_controls. rewrite Hc, column_fmap by done. csimpl.
  fold (date_cells df). split.
  - intros He. by rewrite (proj2 (forallb_isnull_timestamps _ Hall) He).
  - intros Hne.
    destruct (forallb isnull (date_cells df)) eqn:En.
    { by apply (forallb_isnull_timestamps _ Hall) in En. }
    destruct (ts_extreme_datetime Z.min _ Hall) as (lo & Hlo & Hlo0 & Hloin & Hlole).
    destruct (ts_extreme_datetime Z.max _ Hall) as (hi & Hhi & Hhi0 & Hhiin & Hhile).
    rewrite Hlo, Hhi. csimpl.
    destruct lo as [lo|]; [|by destruct Hne; apply Hlo0].
    destruct hi as [hi|]; [|by destruct Hne; apply Hhi0].
    exists lo, hi. split; [apply Hloin; [intros; lia|done]|].
    split; [apply Hhiin; [intros; lia|done]|]. split.
    + intros t Ht. split.
      * apply (Hlole Z.le); [intros; lia|intros; lia|intros; lia|done|done].
      * apply Z.ge_le.
        apply (Hhile Z.ge); [intros; lia|intros; lia|intros; lia|done|done].
    + unfold date_input, chosen_range.
      destruct user as [[|a [|b [|? ?]]]|]; done.
Qed.

(** X1: on a date column of timestamps and nulls the date control never
    raises; without any timestamp it yields no range (no filtering), and
    otherwise the two days the user chose, or, when the choice is not a
    pair of days, the days of the earliest and the latest timestamp. *)
Theorem date_controls_range (df : DataFrame) (user : option (list Z)) :
  has_column df (date_col_of df) = true ->
  datetime_column df (date_col_of df) = true ->
  (timestamps (date_cells df) = [] -> date_controls df user = Ok (None, None)) /\
  (timestamps (date_cells df) <> [] ->
   exists lo hi,
     lo ∈ timestamps (date_cells df) /\ hi ∈ timestamps (date_cells df) /\
     (forall t, t ∈ timestamps (date_cells df) -> (lo <= t <= hi)%Z) /\
     date_controls df user
     = Ok (Some (chosen_range user (date_of_ts lo) (date_of_ts hi)).1,
           Some (chosen_range user (date_of_ts lo) (date_of_ts hi)).2)).
Proof. exact (date_controls_cases df user). Qed.

Lemma date_controls_range_witness :
  (timestamps (date_cells Samples.dated_videos) = [] ->
   date_controls Samples.dated_videos (Some [3; 3]%Z) = Ok (None, None)) /\
  (timestamps (date_cells Samples.dated_videos) <> [] ->
   exists lo hi,
     lo ∈ timestamps (date_cells Samples.dated_videos) /\
     hi ∈ timestamps (date_cells Samples.dated_videos) /\
     (forall t, t ∈ timestamps (date_cells Samples.dated_videos) -> (lo <= t <= hi)%Z) /\
     date_controls Samples.dated_videos (Some [3; 3]%Z)
     = Ok (Some (chosen_range (Some [3; 3]%Z) (date_of_ts lo) (date_of_ts hi)).1,
           Some (chosen_range (Some [3; 3]%Z) (date_of_ts lo) (date_of_ts hi)).2)).
Proof.
  apply (date_controls_range Samples.dated_videos (Some [3; 3]%Z)); reflexivity.
Defined.

Lemma day_and_time (t d : Z) :
  (clock d 0 0 0 <= t)%Z <-> (d <= date_of_ts t)%Z.
Proof.
  unfold clock, date_of_ts, ts_of_date, ns_per_day, ns_per_sec.
  pose proof (Z.div_mod t (86400 * 1000000000) ltac:(lia)) as Hdm.
  pose proof (Z.mod_pos_bound t (86400 * 1000000000) ltac:(lia)) as Hm.
  lia.
Qed.

Lemma day_and_time_end (t d : Z) :
  (t <= clock d 23 59 59)%Z <->
  (date_of_ts t <= d)%Z /\
  (date_of_ts t = d -> (time_of_day t <= 86399 * ns_per_sec)%Z).
Proof.
  unfold clock, date_of_ts, time_of_day, ts_of_date, ns_per_day, ns_per_sec.
  pose proof (Z.div_mod t (86400 * 1000000000) ltac:(lia)) as Hdm.
  pose proof (Z.mod_pos_bound t (86400 * 1000000000) ltac:(lia)) as Hm.
  lia.
Qed.

Lemma filter_by_date_days (df : DataFrame) (col : string) (s e : Z) :
  has_column df col = true -> datetime_column df col = true ->
  exists out, filter_by_date df (Some s) (Some e) col = Ok out /\
    columns out = columns df /\
    rows out `sublist_of` rows df /\
    forall r, r ∈ rows out <->
      r ∈ rows df /\
      exists t, get_cell r.2 col = Ts t /\
        (s <= date_of_ts t <= e)%Z /\
        (date_of_ts t = e -> (time_of_day t <= 86399 * ns_per_sec)%Z).
Proof.
  intros Hc Hd. eexists. split; [by apply filter_by_date_eq|].
  split; [done|]. simpl. split; [apply sublist_filter|].
  intros r. rewrite list_elem_of_filter, Is_true_true, between_spec.
  split.
  - intros [(t & Ht & Hlo & Hhi) Hr]. split; [done|]. exists t.
    apply day_and_time in Hlo. apply day_and_time_end in Hhi. tauto.
  - intros [Hr (t & Ht & [Hlo Hhi] & Hlast)]. split; [|done]. exists t.
    split; [done|]. split; [by apply day_and_time|].
    by apply day_and_time_end.
Qed.



(** X3: a table without a usable date column is not filtered at all,
    whatever the user chose: the date column is missing from the schema,
    or it holds no timestamp. *)
Theorem date_filtered_without_dates (df : DataFrame) (user : option (list Z)) :
  has_column df (date_col_of df) = false \/
  (datetime_column df (date_col_of df) = true /\ timestamps (date_cells df) = []) ->
  date_filtered df user = Ok df.
Proof.
  unfold date_filtered. intros [Hc|[Hd Hts]].
  - unfold date_controls. by rewrite Hc.
  - destruct (has_column df (date_col_of df)) eqn:Hc.
    + destruct (date_controls_cases df user Hc Hd) as [Hnone _].
      by rewrite (Hnone Hts).
    + unfold date_controls. by rewrite Hc.
Qed.

Lemma date_filtered_without_dates_witness :
  date_filtered Samples.undated_videos (Some [1; 2]%Z) = Ok Samples.undated_videos.
Proof.
  apply (date_filtered_without_dates Samples.undated_videos (Some [1; 2]%Z)).
  left. reflexivity.
Defined.

Lemma whole_second_time_of_day (t : Z) :
  (t mod ns_per_sec = 0)%Z -> (time_of_day t <= 86399 * ns_per_sec)%Z.
Proof.
  unfold time_of_day, ns_per_day, ns_per_sec. intros Hs.
  pose proof (Z.div_mod t (86400 * 1000000000) ltac:(lia)) as Hdm.
  pose proof (Z.mod_pos_bound t (86400 * 1000000000) ltac:(lia)) as Hm.
  pose proof (Z.div_mod t 1000000000 ltac:(lia)) as Hds.
  lia.
Qed.



(** ** The conversion of the date columns *)

Lemma rmap_Ok_inv {A B} (f : A -> result B) (l : list A) (l' : list B) :
  rmap f l = Ok l' -> Forall2 (fun a b => f a = Ok b) l l'.
Proof.
  revert l'. induction l as [|a l IH]; intros l'; csimpl.
  - intros [= <-]. constructor.
  - destruct (f a) as [b|e] eqn:Ea; csimpl; [|done].
    destruct (rmap f l) as [bs|e]; csimpl; [|done].
    intros [= <-]. constructor; [done|]. by apply IH.
Qed.

Lemma rmap_Raise_inv {A B} (f : A -> result B) (l : list A) (e : exn) :
  rmap f l = Raise e -> exists a, a ∈ l /\ f a = Raise e.
Proof.
  induction l as [|a l IH]; csimpl; [done|].
  destruct (f a) as [b|e'] eqn:Ea; csimpl.
  - destruct (rmap f l) as [bs|e'']; csimpl; [done|].
    intros [= <-]. destruct IH as (a' & Ha' & Hf); [done|].
    exists a'. split; [by apply list_elem_of_further|done].
  - intros [= <-]. exists a. split; [apply list_elem_of_here|done].
Qed.

Lemma zip_set_Forall2 (c : string) (R : cell -> cell -> Prop)
    (rs : list (nat * gmap string cell)) (ts : list cell) :
  Forall2 R ((fun r => get_cell r.2 c) <$> rs) ts ->
  Forall2 (fun r r' => exists t, R (get_cell r.2 c) t /\ r' = (r.1, <[c := t]> r.2))
    rs (zip_set c rs ts).
Proof.
  revert ts. induction rs as [|r rs IH]; intros ts; csimpl.
  - intros ->%Forall2_nil_inv_l. constructor.
  - intros (t & ts' & Ht & Hts & ->)%Forall2_cons_inv_l. simpl.
    constructor; [by exists t|]. by apply IH.
Qed.

Section Conversion.

Variable parse_datetime : string -> option Z.

Lemma to_datetime_is_datetime (c t : cell) :
  to_datetime parse_datetime c = Ok t -> is_datetime t = true.
Proof.
  destruct c as [q|s| |x]; simpl; try by intros [= <-].
  destruct (parse_datetime s); [by intros [= <-]|done].
Qed.

Lemma ensure_datetime_rows (df df' : DataFrame) (c : string) :
  has_column df c = true -> ensure_datetime parse_datetime df c = Ok df' ->
  columns df' = columns df /\
  Forall2 (fun r r' => exists t, to_datetime parse_datetime (get_cell r.2 c) = Ok t /\
                         r' = (r.1, <[c := t]> r.2))
    (rows df) (rows df').
Proof.
  intros Hc. unfold ensure_datetime. rewrite Hc, column_fmap by done. csimpl.
  destruct (rmap _ _) as [ts|e] eqn:E; csimpl; [|done].
  intros [= <-]. unfold set_column. rewrite Hc. simpl. split; [done|].
  apply (zip_set_Forall2 c (fun a t => to_datetime parse_datetime a = Ok t)).
  by apply rmap_Ok_inv.
Qed.

(** X5: when the assignment [df[c] = pd.to_datetime(df[c])] of lines
    34-39 returns, the schema, the labels and every other column are as
    before, the column holds timestamps and NaT only, which is what the
    date filter needs, and converting once more, as line 173 does on the
    copy of the history, changes nothing. *)
Theorem ensure_datetime_converts (df df' : DataFrame) (c : string) :
  has_column df c = true -> ensure_datetime parse_datetime df c = Ok df' ->
  columns df' = columns df /\
  fst <$> rows df' = fst <$> rows df /\
  datetime_column df' c = true /\
  ensure_datetime parse_datetime df' c = Ok df' /\
  forall i r r' c', c' <> c -> rows df !! i = Some r -> rows df' !! i = Some r' ->
    r'.2 !! c' = r.2 !! c'.
Proof.
  intros Hc Hok. destruct (ensure_datetime_rows df df' c Hc Hok) as [Hcols Hrows].
  split; [done|]. split; [|split; [|split]].
  - induction Hrows as [|r r' rs rs' (t & _ & ->) _ IH]; csimpl; [done|].
    by rewrite IH.
  - unfold datetime_column. apply forallb_forall. intros r' Hr'.
    apply list_elem_of_In, list_elem_of_lookup_1 in Hr' as [i Hi].
    destruct (Forall2_lookup_r _ _ _ _ _ Hrows Hi) as (r & _ & t & Ht & ->).
    simpl. rewrite get_cell_insert, bool_decide_eq_true_2 by done.
    by eapply to_datetime_is_datetime.
  - apply ensure_datetime_id. unfold already_datetime.
    apply orb_true_iff. right. apply forallb_forall. intros r' Hr'.
    apply list_elem_of_In, list_elem_of_lookup_1 in Hr' as [i Hi].
    destruct (Forall2_lookup_r _ _ _ _ _ Hrows Hi) as (r & _ & t & Ht & ->).
    simpl. rewrite lookup_insert_eq.
    apply to_datetime_is_datetime in Ht. by destruct t.
  - intros i r r' c' Hne Hr Hr'.
    destruct (Forall2_lookup_l _ _ _ _ _ Hrows Hr) as (r'' & Hr'' & t & _ & ->).
    rewrite Hr' in Hr''. injection Hr'' as ->. simpl.
    by rewrite lookup_insert_ne.
Qed.


End Conversion.

Lemma ensure_datetime_converts_witness :
  exists df',
    ensure_datetime Samples.fourth_of_january Samples.text_dated_videos "fetched_at"
    = Ok df' /\
    columns df' = columns Samples.text_dated_videos /\
    fst <$> rows df' = fst <$> rows Samples.text_dated_videos /\
    datetime_column df' "fetched_at" = true /\
    ensure_datetime Samples.fourth_of_january df' "fetched_at" = Ok df'.
Proof.
  pose (r := ensure_datetime Samples.fourth_of_january Samples.text_dated_videos
               "fetched_at").
  assert (Hr : r = Ok (value blank r)) by (apply is_ok_value; vm_compute; reflexivity).
  exists (value blank r). split; [exact Hr|].
  destruct (ensure_datetime_converts Samples.fourth_of_january
              Samples.text_dated_videos (value blank r) "fetched_at" eq_refl Hr)
    as (H1 & H2 & H3 & H4 & _).
  by repeat split.
Defined.


(** ** The prepared table *)

Section Prepared.

Variable parse_number : string -> option Q.

Lemma prepare_eq (df : DataFrame) :
  prepare parse_number df
  = Ok {| columns := prepared_columns df;
          rows := (fun r => (r.1, prepared_row parse_number df r.2)) <$> rows df |}.
Proof.
  unfold prepare. rewrite coerce_numeric_eq. csimpl.
  rewrite (add_engagement_rate_eq parse_number).
  - simpl. rewrite <- list_fmap_compose. done.
  - intros c Hc. apply has_column_true. simpl. rewrite !elem_of_add_column.
    revert Hc. unfold numeric_columns. rewrite !elem_of_cons, elem_of_nil. tauto.
  - intros r (r0 & -> & _)%list_elem_of_fmap. apply coerce_row_numeric.
Qed.

Lemma coerce_row_fixed (df : DataFrame) (r : gmap string cell) :
  (forall c, c ∈ numeric_columns -> has_column df c = true) ->
  numeric_row r -> coerce_row parse_number df r = r.
Proof.
  intros Hcols Hr. unfold coerce_row.
  assert (Hfix : forall c (m : gmap string cell), c ∈ numeric_columns ->
            get_cell m c = get_cell r c -> m = r ->
            <[c := Num (coerced_at parse_number df c r)]> m = r).
  { intros c m Hc Hm ->. apply insert_id. destruct (Hr c Hc) as [q Hq].
    unfold coerced_at, get_cell. rewrite (Hcols c Hc), Hq. done. }
  assert (Hin : forall c, c ∈ ["views"; "likes"; "dislikes"; "comments"] ->
                  c ∈ numeric_columns) by done.
  rewrite (Hfix "views" r); [|apply Hin; repeat constructor|done|done].
  rewrite (Hfix "likes" r); [|apply Hin; repeat constructor|done|done].
  rewrite (Hfix "dislikes" r); [|apply Hin; repeat constructor|done|done].
  apply Hfix; [apply Hin; repeat constructor|done|done].
Qed.

Lemma foldl_add_column_numeric (cols : list string) (c : string) :
  c ∈ foldl add_column cols numeric_columns <-> c ∈ cols \/ c ∈ numeric_columns.
Proof.
  unfold numeric_columns. simpl. rewrite !elem_of_add_column, !elem_of_cons, elem_of_nil.
  tauto.
Qed.

Lemma add_column_present (cols : list string) (c : string) :
  c ∈ cols -> add_column cols c = cols.
Proof. intros H. unfold add_column. by rewrite bool_decide_eq_true_2. Qed.

Lemma foldl_add_column_present (cols l : list string) :
  (forall c, c ∈ l -> c ∈ cols) -> foldl add_column cols l = cols.
Proof.
  induction l as [|c l IH]; intros H; simpl; [done|].
  rewrite add_column_present by (apply H, list_elem_of_here).
  apply IH. intros c' Hc'. by apply H, list_elem_of_further.
Qed.

(** X7: coercing a coerced table changes nothing: lines 82-85 are
    idempotent. *)
Theorem coerce_numeric_idempotent (df : DataFrame) :
  exists cf, coerce_numeric parse_number df = Ok cf /\
    coerce_numeric parse_number cf = Ok cf.
Proof.
  eexists. split; [apply coerce_numeric_eq|].
  rewrite coerce_numeric_eq. simpl. f_equal.
  assert (Hcols : forall c, c ∈ numeric_columns ->
            c ∈ foldl add_column (columns df) numeric_columns).
  { intros c Hc. apply foldl_add_column_numeric. by right. }
  f_equal.
  - by apply (foldl_add_column_present
                (foldl add_column (columns df) numeric_columns) numeric_columns).
  - rewrite <- list_fmap_compose. apply list_fmap_ext. intros i [l r] _. simpl.
    f_equal. apply coerce_row_fixed; [|apply coerce_row_numeric].
    intros c Hc. apply has_column_true. simpl. by apply Hcols.
Qed.

Lemma prepared_row_number (df : DataFrame) (r : gmap string cell) (c : string) :
  c ∈ numeric_columns \/ c = "engagement_rate" ->
  exists q, prepared_row parse_number df r !! c = Some (Num q).
Proof.
  unfold prepared_row. intros [Hc| ->]; [|by rewrite lookup_insert_eq; eauto].
  rewrite lookup_insert_ne.
  - rewrite coerce_row_lookup by done. eauto.
  - intros <-. revert Hc. unfold numeric_columns.
    rewrite !elem_of_cons, elem_of_nil. by intros [|[|[|[|]]]].
Qed.

Lemma prepared_columns_elem_of (df : DataFrame) (c : string) :
  c ∈ prepared_columns df <->
  c ∈ columns df \/ c ∈ numeric_columns \/ c = "engagement_rate".
Proof.
  unfold prepared_columns. rewrite elem_of_add_column, foldl_add_column_numeric. tauto.
Qed.

Lemma add_column_prefix (cols : list string) (c : string) :
  cols `prefix_of` add_column cols c.
Proof. unfold add_column. case_bool_decide; [done|]. by apply prefix_app_r. Qed.

Lemma prepare_spec (df : DataFrame) :
  exists ef, prepare parse_number df = Ok ef /\
    fst <$> rows ef = fst <$> rows df /\
    columns df `prefix_of` columns ef /\
    (forall c, c ∈ columns ef <->
       c ∈ columns df \/ c ∈ numeric_columns \/ c = "engagement_rate") /\
    (forall i r c, rows ef !! i = Some r ->
       c ∈ numeric_columns \/ c = "engagement_rate" ->
       exists q, r.2 !! c = Some (Num q)) /\
    (forall i r r' c, c ∉ numeric_columns -> c <> "engagement_rate" ->
       rows df !! i = Some r -> rows ef !! i = Some r' -> r'.2 !! c = r.2 !! c).
Proof.
  eexists. split; [apply prepare_eq|]. simpl. split; [|split; [|split; [|split]]].
  - rewrite <- list_fmap_compose. by apply list_fmap_ext.
  - unfold prepared_columns, numeric_columns. simpl.
    repeat (etrans; [|apply add_column_prefix]). done.
  - apply prepared_columns_elem_of.
  - intros i r c Hr Hc. rewrite list_lookup_fmap in Hr.
    destruct (rows df !! i) as [r0|]; [|done]. injection Hr as <-. simpl.
    by apply prepared_row_number.
  - intros i r r' c Hc Hne Hr Hr'. rewrite list_lookup_fmap, Hr in Hr'.
    injection Hr' as <-. simpl. unfold prepared_row.
    rewrite lookup_insert_ne by done. by apply coerce_row_other.
Qed.

(** X8: lines 82-91 never raise, whatever the table holds; they keep the
    rows, their labels and their order, keep the columns of the schema in
    place and add after them only the missing ones of views, likes,
    dislikes, comments and engagement_rate; and they leave every cell of
    any other column (title, dates, ...) as it was. *)
Theorem prepare_frame (df : DataFrame) :
  exists ef, prepare parse_number df = Ok ef /\
    fst <$> rows ef = fst <$> rows df /\
    columns df `prefix_of` columns ef /\
    (forall c, c ∈ columns ef <->
       c ∈ columns df \/ c ∈ numeric_columns \/ c = "engagement_rate") /\
    (forall i r c, rows ef !! i = Some r ->
       c ∈ numeric_columns \/ c = "engagement_rate" ->
       exists q, r.2 !! c = Some (Num q)) /\
    (forall i r r' c, c ∉ numeric_columns -> c <> "engagement_rate" ->
       rows df !! i = Some r -> rows ef !! i = Some r' -> r'.2 !! c = r.2 !! c).
Proof. exact (prepare_spec df). Qed.

Lemma cells_sum_numbers (c : string) (rs : list (nat * gmap string cell)) :
  (forall r, r ∈ rs -> exists q, r.2 !! c = Some (Num q)) ->
  cells_sum ((fun r => get_cell r.2 c) <$> rs) = Ok (sum_of (fun r => num_at r c) rs) /\
  count_notnull ((fun r => get_cell r.2 c) <$> rs) = length rs.
Proof.
  induction rs as [|r rs IH]; intros H; [done|]. csimpl.
  destruct (H r) as [q Hq]; [apply list_elem_of_here|].
  destruct IH as [IH1 IH2]; [intros r' Hr'; by apply H, list_elem_of_further|].
  assert (Hg : get_cell r.2 c = Num q) by (unfold get_cell; by rewrite Hq).
  assert (Hn : num_at r.2 c = q) by (unfold num_at; by rewrite Hg).
  rewrite Hg, Hn. simpl. rewrite IH1. csimpl. split; [done|].
  unfold count_notnull in *. rewrite filter_cons_True by done. simpl. by rewrite IH2.
Qed.


End Prepared.

(** ** The most viewed, liked and disliked rows *)

Lemma first_max_None (ks : list (option Q * nat)) (best : option (nat * Q)) :
  first_max best ks = None -> best = None /\ Forall (fun x => x.1 = None) ks.
Proof.
  revert best. induction ks as [|[[p|] n] ks IH]; intros best; simpl.
  - by intros ->.
  - destruct best as [[lb b]|].
    + destruct (Qle_bool p b); intros H; by apply IH in H as [? _].
    + intros H. by apply IH in H as [? _].
  - intros H. apply IH in H as [-> H]. split; [done|]. by constructor.
Qed.

Lemma first_max_Some (ks : list (option Q * nat)) (best : option (nat * Q))
    (l : nat) (q : Q) :
  first_max best ks = Some (l, q) ->
  Forall (fun x => forall q', x.1 = Some q' -> (q' <= q)%Q) ks /\
  ((best = Some (l, q)) \/
   (exists i, ks !! i = Some (Some q, l) /\
      (forall j x q', j < i -> ks !! j = Some x -> x.1 = Some q' -> (q' < q)%Q) /\
      (forall lb b, best = Some (lb, b) -> (b < q)%Q))).
Proof.
  revert best. induction ks as [|[[p|] n] ks IH]; intros best; simpl.
  - intros ->. split; [constructor|by left].
  - assert (Hstep : forall lb' b', first_max (Some (lb', b')) ks = Some (l, q) ->
              (p <= b')%Q ->
              ((lb', b') = (l, q) -> best = Some (l, q) \/ (n = l /\ p = q /\
                 forall lb b, best = Some (lb, b) -> (b < q)%Q)) ->
              ((b' < q)%Q -> forall lb b, best = Some (lb, b) -> (b < q)%Q) ->
              Forall (fun x => forall q', x.1 = Some q' -> (q' <= q)%Q)
                ((Some p, n) :: ks) /\
              (best = Some (l, q) \/
               exists i, ((Some p, n) :: ks) !! i = Some (Some q, l) /\
                 (forall j x q', j < i -> ((Some p, n) :: ks) !! j = Some x ->
                    x.1 = Some q' -> (q' < q)%Q) /\
                 (forall lb b, best = Some (lb, b) -> (b < q)%Q))).
    { intros lb' b' Hf Hp Hleft Hright.
      destruct (IH _ Hf) as [Hall [Hb|(i & Hi & Hearly & Hbest)]].
      - injection Hb as -> ->.
        split; [constructor; [by intros q' [= <-]|done]|].
        destruct (Hleft eq_refl) as [?|(-> & -> & Hbst)]; [by left|].
        right. exists 0. split; [done|]. split; [intros; lia|done].
      - assert (Hpq : (p < q)%Q).
        { eapply Qle_lt_trans; [exact Hp|by apply (Hbest lb' b')]. }
        split; [constructor; [intros q' [= <-]; by apply Qlt_le_weak|done]|].
        right. exists (S i). split; [done|]. split.
        + intros [|j] x q' Hj Hx Hq'.
          * injection Hx as <-. by injection Hq' as <-.
          * apply (Hearly j x q'); [lia|done|done].
        + apply Hright. by apply (Hbest lb' b'). }
    destruct best as [[lb b]|].
    + destruct (Qle_bool p b) eqn:E.
      * apply Qle_bool_iff in E. intros Hf.
        apply (Hstep lb b Hf E).
        -- intros [= <- <-]. by left.
        -- by intros ? ? ? [= <- <-].
      * assert (Hlt : (b < p)%Q).
        { apply Qnot_le_lt. intros H. apply Qle_bool_iff in H. congruence. }
        intros Hf. apply (Hstep n p Hf (Qle_refl p)).
        -- intros [= <- <-]. right. split; [done|]. split; [done|].
           by intros ? ? [= <- <-].
        -- intros Hpq ? ? [= <- <-]. by eapply Qlt_trans.
    + intros Hf. apply (Hstep n p Hf (Qle_refl p)).
      -- intros [= <- <-]. right. by repeat split.
      -- by intros.
  - intros Hf. destruct (IH best Hf) as [Hall [Hb|(i & Hi & Hearly & Hbest)]].
    + split; [constructor; [done|done]|by left].
    + split; [constructor; [done|done]|]. right. exists (S i).
      split; [done|]. split; [|done].
      intros [|j] x q' Hj Hx Hq'; [by injection Hx as <-|].
      apply (Hearly j x q'); [lia|done|done].
Qed.

Lemma first_max_all_null (ks : list (option Q * nat)) (best : option (nat * Q)) :
  Forall (fun x => x.1 = None) ks -> first_max best ks = best.
Proof.
  induction 1 as [|[k n] ks Hk _ IH]; [done|]. simpl in *. by rewrite Hk.
Qed.

Lemma loc_unique (df : DataFrame) (i l : nat) (r : gmap string cell) :
  NoDup (fst <$> rows df) -> rows df !! i = Some (l, r) -> loc df l = Ok r.
Proof.
  intros Hnd Hi. unfold loc.
  destruct (find _ _) as [x|] eqn:E.
  - apply find_some in E as [Hin Hl]. apply Nat.eqb_eq in Hl.
    apply list_elem_of_In, list_elem_of_lookup_1 in Hin as [j Hj].
    assert (i = j) as <-.
    { apply (NoDup_lookup (fst <$> rows df) i j l); [done|..].
      - by rewrite list_lookup_fmap, Hi.
      - by rewrite list_lookup_fmap, Hj; simpl; rewrite Hl. }
    rewrite Hi in Hj. by injection Hj as <-.
  - assert (Hin : In (l, r) (rows df))
      by (eapply list_elem_of_In, list_elem_of_lookup_2, Hi).
    apply (find_none _ _ E) in Hin. simpl in Hin. by rewrite Nat.eqb_refl in Hin.
Qed.

Lemma keyed_labels_lookup (col : string) (rs : list (nat * gmap string cell))
    (j : nat) (x : option Q * nat) :
  zip (row_key col <$> rs) (fst <$> rs) !! j = Some x <->
  exists r, rs !! j = Some r /\ x = (row_key col r, r.1).
Proof.
  rewrite lookup_zip_with_Some. rewrite !list_lookup_fmap. split.
  - intros (k & l & -> & Hk & Hl). destruct (rs !! j) as [r|]; [|done].
    simpl in *. injection Hk as <-. injection Hl as <-. by exists r.
  - intros (r & -> & ->). by exists (row_key col r), r.1.
Qed.

Lemma row_of_max_spec (df : DataFrame) (col : string) :
  sortable_column df col = true -> NoDup (fst <$> rows df) ->
  (Forall (fun r => row_key col r = None) (rows df) ->
   row_of_max df col = Raise ValueError) /\
  (Exists (fun r => row_key col r <> None) (rows df) ->
   exists i l r q,
     rows df !! i = Some (l, r) /\ row_key col (l, r) = Some q /\
     idxmax df col = Ok l /\ row_of_max df col = Ok r /\
     (forall r', r' ∈ rows df -> key_ge (Some q) (row_key col r') = true) /\
     (forall j r' q', j < i -> rows df !! j = Some r' ->
        row_key col r' = Some q' -> (q' < q)%Q)).
Proof.
  intros [Hc Hk]%sortable_keys Hnd.
  assert (Hidx : idxmax df col
            = match first_max None (zip (row_key col <$> rows df) (fst <$> rows df)) with
              | Some (l, _) => Ok l
              | None => Raise ValueError
              end).
  { unfold idxmax. rewrite column_fmap by done. csimpl. by rewrite Hk. }
  split.
  - intros Hall. unfold row_of_max. rewrite Hidx, first_max_all_null; [done|].
    apply Forall_forall. intros x [j Hj]%list_elem_of_lookup_1.
    apply keyed_labels_lookup in Hj as (r & Hr & ->). simpl.
    rewrite Forall_forall in Hall. by eapply Hall, list_elem_of_lookup_2.
  - intros Hex.
    destruct (first_max None _) as [[l q]|] eqn:E.
    2:{ apply first_max_None in E as [_ Hall].
        apply Exists_exists in Hex as (r & Hr & Hne).
        apply list_elem_of_lookup_1 in Hr as [j Hj].
        rewrite Forall_forall in Hall. destruct Hne.
        apply (Hall (row_key col r, r.1)).
        eapply list_elem_of_lookup_2, keyed_labels_lookup. eauto. }
    apply first_max_Some in E as [Hall [?|(i & Hi & Hearly & _)]]; [done|].
    apply keyed_labels_lookup in Hi as ([l' r] & Hr & [= Hq ->]).
    exists i, l', r, q. split; [done|]. split; [done|]. split; [done|].
    split; [|split].
    + unfold row_of_max. rewrite Hidx. csimpl. by eapply loc_unique.
    + intros r' [j Hj]%list_elem_of_lookup_1.
      rewrite Forall_forall in Hall.
      destruct (row_key col r') as [q'|] eqn:Eq'; [|done]. simpl.
      apply Qle_bool_iff. apply (Hall (Some q', r'.1)); [|done].
      eapply list_elem_of_lookup_2, keyed_labels_lookup. exists r'. by rewrite Eq'.
    + intros j r' q' Hj Hr' Hq'. apply (Hearly j (Some q', r'.1) q'); [done| |done].
      apply keyed_labels_lookup. exists r'. by rewrite Hq'.
Qed.



Lemma filter_first {A} (P : A -> Prop) `{!forall a, Decision (P a)}
    (l : list A) (i : nat) (x : A) :
  l !! i = Some x -> P x -> (forall j y, j < i -> l !! j = Some y -> ~ P y) ->
  filter P l !! 0 = Some x.
Proof.
  revert i. induction l as [|a l IH]; intros [|i] Hi Hx Hearly; try done.
  - injection Hi as ->. by rewrite filter_cons_True.
  - rewrite filter_cons_False by (apply (Hearly 0 a); [lia|done]).
    apply (IH i); [done|done|]. intros j y Hj Hy. apply (Hearly (S j) y); [lia|done].
Qed.



Section MostOf.

Variable parse_number : string -> option Q.

Lemma prepared_row_of_max (df ef : DataFrame) (c : string) :
  prepare parse_number df = Ok ef -> rows df <> [] -> NoDup (fst <$> rows df) ->
  c ∈ numeric_columns ->
  exists lab r, row_of_max ef c = Ok r /\ (lab, r) ∈ rows ef /\
    forall r', r' ∈ rows ef -> (num_at r'.2 c <= num_at r c)%Q.
Proof.
  intros Hef Hne Hnd Hc.
  destruct (prepare_spec parse_number df) as (ef' & Hef' & Hlab & _ & Hcols & Hnum & _).
  rewrite Hef in Hef'. injection Hef' as <-.
  assert (Hkey : forall r', r' ∈ rows ef -> row_key c r' = Some (num_at r'.2 c)).
  { intros r' [j Hj]%list_elem_of_lookup_1.
    destruct (Hnum j r' c Hj (or_introl Hc)) as [q Hq].
    unfold row_key, num_at, get_cell. by rewrite Hq. }
  assert (Hs : sortable_column ef c = true).
  { unfold sortable_column. apply andb_true_iff. split.
    - apply has_column_true, Hcols. tauto.
    - apply forallb_forall. intros r' Hr'%list_elem_of_In.
      apply Hkey in Hr'. unfold row_key in Hr'. by destruct (get_cell r'.2 c). }
  assert (Hex : Exists (fun r => row_key c r <> None) (rows ef)).
  { destruct (rows ef) as [|r0 rs] eqn:E.
    - by destruct (rows df).
    - apply Exists_cons_hd. rewrite Hkey; [done|]. apply list_elem_of_here. }
  rewrite <- Hlab in Hnd.
  destruct (row_of_max_spec ef c Hs Hnd) as [_ Hmax].
  destruct (Hmax Hex) as (i & l & r & q & Hi & Hq & _ & Hrow & Hge & _).
  exists l, r. split; [done|]. split; [by eapply list_elem_of_lookup_2|].
  intros r' Hr'. specialize (Hge r' Hr').
  rewrite (Hkey r' Hr') in Hge. simpl in Hge. apply Qle_bool_iff in Hge.
  rewrite (Hkey (l, r)) in Hq by (by eapply list_elem_of_lookup_2).
  injection Hq as <-. done.
Qed.

(** X12: when the prepared table has a row (and distinct labels), lines
    144-147 never raise and never look at the table as loaded: the most
    viewed, most liked and most disliked rows are rows of the filtered
    table, each with the largest value of its column. *)
Theorem most_of_filtered (videos_df df : DataFrame) :
  rows df <> [] -> NoDup (fst <$> rows df) ->
  exists ef v l d,
    prepare parse_number df = Ok ef /\
    most_of videos_df ef = Ok {| mv := Some v; ml := Some l; md := Some d |} /\
    (exists lab, (lab, v) ∈ rows ef) /\
    (exists lab, (lab, l) ∈ rows ef) /\
    (exists lab, (lab, d) ∈ rows ef) /\
    forall r, r ∈ rows ef ->
      (num_at r.2 "views" <= num_at v "views")%Q /\
      (num_at r.2 "likes" <= num_at l "likes")%Q /\
      (num_at r.2 "dislikes" <= num_at d "dislikes")%Q.
Proof.
  intros Hne Hnd.
  destruct (prepare_spec parse_number df) as (ef & Hef & Hlab & _ & Hcols & _).
  destruct (prepared_row_of_max df ef "views" Hef Hne Hnd) as (lv & v & Hv & Hvin & Hvmax);
    [unfold numeric_columns; repeat constructor|].
  destruct (prepared_row_of_max df ef "likes" Hef Hne Hnd) as (ll & l & Hl & Hlin & Hlmax);
    [unfold numeric_columns; repeat constructor|].
  destruct (prepared_row_of_max df ef "dislikes" Hef Hne Hnd) as (ld & d & Hd & Hdin & Hdmax);
    [unfold numeric_columns; repeat constructor|].
  exists ef, v, l, d. split; [done|]. split.
  - unfold most_of.
    assert (He : empty ef = false).
    { assert (Hin : "views" ∈ columns ef)
        by (apply Hcols; right; left; unfold numeric_columns; repeat constructor).
      unfold empty. destruct (rows ef) eqn:E.
      - by destruct (rows df).
      - destruct (columns ef); [by apply elem_of_nil in Hin|done]. }
    rewrite He. simpl. rewrite Hv, Hl, Hd. done.
  - split; [eauto|]. split; [eauto|]. split; [eauto|].
    intros r Hr. split; [by apply Hvmax|]. split; [by apply Hlmax|by apply Hdmax].
Qed.

End MostOf.

Lemma most_of_filtered_witness :
  exists ef v l d,
    prepare Samples.no_number Samples.four_videos = Ok ef /\
    most_of Samples.sparse_videos ef
    = Ok {| mv := Some v; ml := Some l; md := Some d |} /\
    (exists lab, (lab, v) ∈ rows ef) /\
    (exists lab, (lab, l) ∈ rows ef) /\
    (exists lab, (lab, d) ∈ rows ef) /\
    forall r, r ∈ rows ef ->
      (num_at r.2 "views" <= num_at v "views")%Q /\
      (num_at r.2 "likes" <= num_at l "likes")%Q /\
      (num_at r.2 "dislikes" <= num_at d "dislikes")%Q.
Proof.
  apply (most_of_filtered Samples.no_number Samples.sparse_videos Samples.four_videos).
  - discriminate.
  - apply (bool_decide_unpack _). vm_compute. exact I.
Defined.

(** ** The channel KPI *)

Lemma kpi_division (v n : cell) :
  let r := m ← max_with_one n; cell_div v m in
  match v, n with
  | Num a, Num k => exists q, r = Ok (Num q)
  | Num _, Null | Null, Num _ | Null, Null => r = Ok Null
  | _, _ => exists e, r = Raise e
  end.
Proof.
  assert (Hz : forall k, Qzero (if Qle_bool 1 k then k else 1) = false).
  { intros k. destruct (Qle_bool 1 k) eqn:E; [|done].
    apply Qle_bool_iff in E. unfold Qzero.
    destruct (Qeq_bool k 0) eqn:Ez; [|done].
    apply Qeq_bool_iff in Ez. rewrite Ez in E. by apply Qle_not_lt in E. }
  destruct v as [a|s| |t], n as [k|s'| |t']; simpl; eauto.
  all: specialize (Hz k); destruct (Qle_bool 1 k); simpl; rewrite ?Hz; eauto.
Qed.


(** ** The refresh button *)

Section Refresh.

Variable parse_number : string -> option Q.
Variable parse_datetime : string -> option Z.
Variable argsort : list (option Q) -> list nat.

(** X14: a run in which the refresh button was pressed never returns a
    report: it stops at line 66, or earlier when the dates cannot be
    read, before any table is copied or filtered and before any ranking;
    when lines 34-59 go through, what ends the run is the rerun. *)
Theorem refresh_stops_run (db : tables) (ui : controls) :
  refresh_clicked ui = true ->
  let run := script parse_number parse_datetime argsort db ui boot in
  is_ok run.1 = false /\
  rankings run.2 = [] /\
  next run.2 = 3 /\
  (forall h v1 v2 range,
     ensure_datetime parse_datetime (channel_history db) "fetched_at" = Ok h ->
     ensure_datetime parse_datetime (videos db) "fetched_at" = Ok v1 ->
     ensure_datetime parse_datetime v1 "published_at" = Ok v2 ->
     date_controls v2 (date_choice ui) = Ok range ->
     run.1 = Raise RerunException).
Proof.
  intros Hrefresh. unfold script, render, boot.
  unfold update, mbind, mret, M_bind, M_ret, alloc, read, write, lift.
  cbn [heap next rankings fst snd].
  rewrite lookup_insert_ne, lookup_insert_eq by done.
  destruct (ensure_datetime _ (channel_history db) _) as [h|e] eqn:Eh;
    cbn [heap next rankings fst snd];
    [|repeat split; intros; congruence].
  rewrite lookup_insert_ne, lookup_insert_eq by done.
  destruct (ensure_datetime _ (videos db) _) as [v1|e] eqn:Ev1;
    cbn [heap next rankings fst snd];
    [|repeat split; intros; congruence].
  rewrite lookup_insert_eq.
  destruct (ensure_datetime _ v1 _) as [v2|e] eqn:Ev2;
    cbn [heap next rankings fst snd];
    [|repeat split; intros; congruence].
  rewrite lookup_insert_eq.
  destruct (date_controls v2 (date_choice ui)) as [range|e] eqn:Ec;
    cbn [heap next rankings fst snd];
    [|repeat split; intros; congruence].
  rewrite Hrefresh. cbn [heap next rankings fst snd].
  by repeat split.
Qed.

End Refresh.

Lemma refresh_stops_run_witness :
  let run := script Samples.no_number Samples.no_date Samples.argsort_first
               Samples.four_db Samples.refreshing boot in
  is_ok run.1 = false /\
  rankings run.2 = [] /\
  next run.2 = 3 /\
  (forall h v1 v2 range,
     ensure_datetime Samples.no_date (channel_history Samples.four_db) "fetched_at" = Ok h ->
     ensure_datetime Samples.no_date (videos Samples.four_db) "fetched_at" = Ok v1 ->
     ensure_datetime Samples.no_date v1 "published_at" = Ok v2 ->
     date_controls v2 (date_choice Samples.refreshing) = Ok range ->
     run.1 = Raise RerunException).
Proof.
  apply (refresh_stops_run Samples.no_number Samples.no_date Samples.argsort_first
           Samples.four_db Samples.refreshing).
  reflexivity.
Defined.

(** ** The table of the latest video statistics *)

Section LatestTable.

Variable parse_number : string -> option Q.

(** X15: on the prepared table, the table of lines 241-242 raises a
    KeyError for "title" when the loaded videos have no title column, and
    only then; otherwise it shows every row of the filtered table, in
    order and labelled from 0, with the same cells in the columns title,
    views, likes, dislikes, comments and, when the table has it, the date
    column. *)
Theorem latest_video_table_shown (df : DataFrame) (date_col : string) :
  exists ef, prepare parse_number df = Ok ef /\
    (has_column df "title" = false ->
     latest_video_table date_col ef = Raise (KeyError "title")) /\
    (has_column df "title" = true ->
     exists t, latest_video_table date_col ef = Ok t /\
       columns t = table_cols date_col ef /\
       fst <$> rows t = seq 0 (length (rows df)) /\
       forall i r, rows ef !! i = Some r ->
         exists r', rows t !! i = Some (i, r') /\
           forall c, c ∈ columns t -> r' !! c = r.2 !! c).
Proof.
  destruct (prepare_spec parse_number df) as (ef & Hef & Hlab & _ & Hcols & _).
  exists ef. split; [done|].
  assert (Hnum : forall c, c ∈ numeric_columns -> has_column ef c = true).
  { intros c Hc. apply has_column_true, Hcols. tauto. }
  assert (Htitle : has_column ef "title" = has_column df "title").
  { apply eq_true_iff_eq. rewrite !has_column_true, Hcols.
    unfold numeric_columns. rewrite !elem_of_cons, elem_of_nil.
    split; [|tauto]. intros [?|[[|[|[|[|]]]]|]]; done. }
  assert (Hfind : has_column df "title" = true ->
            find (fun c => negb (has_column ef c)) (table_cols date_col ef) = None).
  { intros Ht. unfold table_cols.
    destruct (has_column ef date_col) eqn:Hd; simpl;
      rewrite Htitle, Ht, !Hnum by (unfold numeric_columns; repeat constructor);
      simpl; by rewrite ?Hd. }
  split.
  - intros Ht. unfold latest_video_table, select_columns, table_cols.
    destruct (has_column ef date_col); simpl; by rewrite Htitle, Ht.
  - intros Ht. unfold latest_video_table, select_columns.
    rewrite (Hfind Ht). csimpl. eexists. split; [reflexivity|].
    unfold reset_index. simpl. rewrite !length_fmap.
    assert (Hlen : length (rows ef) = length (rows df)).
    { by rewrite <- (length_fmap fst (rows ef)), Hlab, length_fmap. }
    split; [done|]. split.
    + rewrite Hlen. apply fst_zip. by rewrite !length_fmap, length_seq, Hlen.
    + intros i r Hr. eexists. split.
      * apply lookup_zip_with_Some. eexists _, _. split; [reflexivity|].
        split.
        -- apply lookup_seq. split; [reflexivity|]. by eapply lookup_lt_Some.
        -- by rewrite !list_lookup_fmap, Hr.
      * intros c Hc. simpl.
        destruct (r.2 !! c) as [x|] eqn:Ex.
        -- by apply map_lookup_filter_Some_2.
        -- apply map_lookup_filter_None. by left.
Qed.

End LatestTable.

(** ** The run as a composition of its steps *)

(** The next statement of a run that has returned: a lookup in the store
    is resolved, a step that can raise has returned. *)
Ltac returned_step H :=
  first
    [ progress cbn [heap next rankings fst snd] in H
    | progress rewrite ?lookup_insert_eq in H
    | rewrite lookup_insert_ne in H by done
    | match type of H with
      | context [match ?r with Ok _ => _ | Raise _ => _ end] =>
          let E := fresh "E" in destruct r eqn:E; [|discriminate H]
      end ].

Section Composition.

Variable parse_number : string -> option Q.
Variable parse_datetime : string -> option Z.
Variable argsort : list (option Q) -> list nat.


End Composition.

